(** * auto_geo frontend: the API client layer and its callers

    A shallow embedding of

      - [fronted/src/services/api/index.ts]: the axios instance, its response
        interceptor (success and error handler), the verb helpers
        [get]/[post]/[put]/[del] and the six domain facades;
      - [fronted/src/views/geo/Articles.vue] and
        [fronted/src/views/geo/Monitor.vue]: the list normalisation done by
        the callers of the facades and the WebSocket log handler.

    JavaScript values are an inductive type, property reads that can raise a
    [TypeError] return a [completion], and the side effects of the layer
    (handing a request to the transport, [console.error], [ElMessage.error])
    are recorded in a trace that is threaded through a small state-and-error
    monad. *)

From Stdlib Require Import String Ascii List ZArith Bool Lia.
From Stdlib Require Import DecimalString DecimalPos DecimalZ.
Import ListNotations.

Local Open Scope string_scope.
Local Open Scope Z_scope.
Local Open Scope list_scope.

Set Warnings "-register-all".

(** ** JavaScript values *)

Module JS.

(** The values the layer handles are what [JSON.parse] and object literals
    produce.  A number is kept as an integer: the source only compares
    numbers with integer literals and tests them for truthiness.  An object
    is the ordered list of its own properties. *)
Inductive value : Type :=
| VUndef
| VNull
| VBool (b : bool)
| VNum (z : Z)
| VStr (s : string)
| VArr (items : list value)
| VObj (fields : list (string * value)).

Definition object := list (string * value).

(** The only exception the modelled code can raise by itself. *)
Inductive exn : Type :=
| TypeError.

Inductive completion (A : Type) : Type :=
| Normal (a : A)
| Throw (e : exn).
Arguments Normal {A} a.
Arguments Throw {A} e.

Definition cbind {A B} (c : completion A) (k : A -> completion B) : completion B :=
  match c with
  | Normal a => k a
  | Throw e => Throw e
  end.

(** ToBoolean. *)
Definition truthy (v : value) : bool :=
  match v with
  | VUndef | VNull => false
  | VBool b => b
  | VNum z => negb (z =? 0)
  | VStr s => negb (String.eqb s EmptyString)
  | VArr _ | VObj _ => true
  end.

Definition is_nullish (v : value) : bool :=
  match v with
  | VUndef | VNull => true
  | _ => false
  end.

(** [a || b] on already evaluated operands. *)
Definition js_or (a b : value) : value := if truthy a then a else b.

(** [a || b] where evaluating an operand may throw: [b] is only looked at
    when [a] completed normally with a falsy value. *)
Definition or_else (a b : completion value) : completion value :=
  match a with
  | Normal v => if truthy v then Normal v else b
  | Throw e => Throw e
  end.

(** [v === n] for a number literal [n]. *)
Definition strict_eq_num (v : value) (n : Z) : bool :=
  match v with
  | VNum z => z =? n
  | _ => false
  end.

Definition Array_isArray (v : value) : bool :=
  match v with
  | VArr _ => true
  | _ => false
  end.

Fixpoint obj_get (k : string) (o : object) : value :=
  match o with
  | [] => VUndef
  | (k', v) :: o' => if String.eqb k k' then v else obj_get k o'
  end.

Fixpoint has_key (k : string) (o : object) : bool :=
  match o with
  | [] => false
  | (k', _) :: o' => String.eqb k k' || has_key k o'
  end.

(** Defining a property: an existing key keeps its place and takes the new
    value, a new key goes last. *)
Fixpoint obj_set (k : string) (v : value) (o : object) : object :=
  match o with
  | [] => [(k, v)]
  | (k', v') :: o' =>
      if String.eqb k k' then (k', v) :: o' else (k', v') :: obj_set k v o'
  end.

(** [{ ...base, ...src }] for an object [src]. *)
Definition assign (base src : object) : object :=
  fold_left (fun acc kv => obj_set (fst kv) (snd kv) acc) src base.

(** [{ ...base, ...config }] where [config] is an optional object: spreading
    [undefined] adds nothing. *)
Definition spread (base : object) (config : option object) : object :=
  match config with
  | Some src => assign base src
  | None => base
  end.

(** [v.k] for a [v] that is neither [undefined] nor [null].  The property
    names the source reads ([response], [data], [detail], [message],
    [status], [time], [level], [date], [keyword_found_count]) are not
    defined on any built-in prototype, so only own properties of objects
    answer. *)
Definition prop (v : value) (k : string) : value :=
  match v with
  | VObj o => obj_get k o
  | _ => VUndef
  end.

(** [v.k]: reading a property of [undefined] or [null] throws. *)
Definition get_prop (v : value) (k : string) : completion value :=
  if is_nullish v then Throw TypeError else Normal (prop v k).

(** The tail of an optional chain, [v?.k1?.k2...]: the chain stops with
    [undefined] at the first link that is [undefined] or [null]. *)
Fixpoint opt_chain (v : value) (ks : list string) : value :=
  match ks with
  | [] => v
  | k :: ks' => if is_nullish v then VUndef else opt_chain (prop v k) ks'
  end.

(** Template-literal conversion of a number, [`${n}`]. *)
Definition num_to_string (n : Z) : string :=
  NilZero.string_of_int (Z.to_int n).

End JS.
Import JS.

Notation "x <-! c ; k" := (cbind c (fun x => k))
  (at level 61, c at next level, right associativity).

(** ** The axios objects the layer touches *)

Module Axios.

(** [AxiosResponse]: the transport's envelope around the body. *)
Record Response : Type := {
  data : value;
  status : Z;
  statusText : string;
  headers : object
}.

(** The defaults given to [axios.create]. *)
Record Defaults : Type := {
  baseURL : value;
  timeout : Z;
  default_headers : list (string * string)
}.

(** How one HTTP exchange ends: a response with a status the transport
    accepts, or an error (an error status, a timeout, no connection). *)
Inductive transport_result : Type :=
| Fulfilled (response : Response)
| Failed (error : value).

(** The state of the promise a call returns. *)
Inductive settled : Type :=
| Resolved (payload : value)
| Rejected (reason : value).

(** axios lets a per-call value win over the instance default and falls back
    to the default when the call's config does not define the key (library
    behaviour, the library is not part of the repository). *)
Definition effective_timeout (d : Defaults) (config : object) : value :=
  match obj_get "timeout" config with
  | VUndef => VNum (timeout d)
  | v => v
  end.

End Axios.

(** ** Effects *)

Inductive effect : Type :=
| Send (config : object)
| ConsoleError (label : string) (arg : value)
| Notify (message : value).

(** The shared client and what the layer has done so far, oldest first. *)
Record world : Type := {
  client : Axios.Defaults;
  trace : list effect
}.

Definition M (A : Type) : Type := world -> world * completion A.

Definition ret {A} (a : A) : M A := fun w => (w, Normal a).

Definition bind {A B} (m : M A) (k : A -> M B) : M B :=
  fun w =>
    match m w with
    | (w', Normal a) => k a w'
    | (w', Throw e) => (w', Throw e)
    end.

Definition lift {A} (c : completion A) : M A := fun w => (w, c).

Definition emit (e : effect) : M unit :=
  fun w => ({| client := client w; trace := trace w ++ [e] |}, Normal tt).

Notation "x <- m ;; k" := (bind m (fun x => k))
  (at level 61, m at next level, right associativity).
Notation "m ;; k" := (bind m (fun _ => k))
  (at level 61, right associativity).

Definition console_error (label : string) (arg : value) : M unit :=
  emit (ConsoleError label arg).

(** [ElMessage.error]: shows one notification. *)
Definition ElMessage_error (message : value) : M unit :=
  emit (Notify message).

(** ** services/api/index.ts *)

(** [import.meta.env.VITE_API_BASE_URL || '/api'] *)
Definition BASE_URL (env_base : value) : value := js_or env_base (VStr "/api").

Definition instance (env_base : value) : Axios.Defaults :=
  {| Axios.baseURL := BASE_URL env_base;
     Axios.timeout := 30000;
     Axios.default_headers := [("Content-Type", "application/json")] |}.

(** The request interceptor hands the config on as it is. *)
Definition request_interceptor (config : object) : object := config.

(** Response interceptor, success handler. *)
Definition onFulfilled (response : Axios.Response) : value :=
  Axios.data response.

Definition label_response_error : string := "响应错误:".
Definition label_500_detail : string := "🚨 后端 500 错误详情:".
Definition fallback_message : string := "请求失败".

(** [error.response?.data?.detail || error.response?.data?.message
     || error.message || '请求失败'] *)
Definition build_message (error : value) : completion value :=
  or_else
    (or_else
       (or_else
          (r <-! get_prop error "response"; Normal (opt_chain r ["data"; "detail"]))
          (r <-! get_prop error "response"; Normal (opt_chain r ["data"; "message"])))
       (get_prop error "message"))
    (Normal (VStr fallback_message)).

(** [error.response?.status] *)
Definition response_status (error : value) : completion value :=
  r <-! get_prop error "response"; Normal (opt_chain r ["status"]).

(** [error.response.data] *)
Definition response_data (error : value) : completion value :=
  r <-! get_prop error "response"; get_prop r "data".

(** Response interceptor, error handler. *)
Definition onRejected (error : value) : M Axios.settled :=
  console_error label_response_error error ;;
  message <- lift (build_message error) ;;
  st <- lift (response_status error) ;;
  (if strict_eq_num st 500
   then payload <- lift (response_data error) ;;
        console_error label_500_detail payload
   else ret tt) ;;
  ElMessage_error message ;;
  ret (Axios.Rejected error).

(** [instance.request]: the config passes the request interceptor, goes to
    the transport once, and the exchange's end runs through the response
    interceptor. *)
Definition instance_request (config : object) (net : Axios.transport_result)
  : M Axios.settled :=
  emit (Send (request_interceptor config)) ;;
  match net with
  | Axios.Fulfilled response => ret (Axios.Resolved (onFulfilled response))
  | Axios.Failed error => onRejected error
  end.

Definition request (config : object) : Axios.transport_result -> M Axios.settled :=
  instance_request config.

Definition get (url : string) (params : value) (config : option object) :=
  request (spread [("method", VStr "GET"); ("url", VStr url); ("params", params)] config).

Definition post (url : string) (data : value) (config : option object) :=
  request (spread [("method", VStr "POST"); ("url", VStr url); ("data", data)] config).

Definition put (url : string) (data : value) (config : option object) :=
  request (spread [("method", VStr "PUT"); ("url", VStr url); ("data", data)] config).

Definition del (url : string) (params : value) (config : option object) :=
  request (spread [("method", VStr "DELETE"); ("url", VStr url); ("params", params)] config).

(** A parameter with a default, [(x = d) => ...]: the default stands in for
    a missing argument and for an explicit [undefined]. *)
Definition default_arg (arg dflt : value) : value :=
  match arg with
  | VUndef => dflt
  | _ => arg
  end.

Module accountApi.
Definition getList (params : value) := get "/accounts" params None.
Definition startAuth (data : value) := post "/accounts/auth/start" data None.
Definition getAuthStatus (taskId : string) :=
  get ("/accounts/auth/status/" ++ taskId)%string VUndef None.
Definition update (id : Z) (data : value) :=
  put ("/accounts/" ++ num_to_string id)%string data None.
Definition delete (id : Z) :=
  del ("/accounts/" ++ num_to_string id)%string VUndef None.
End accountApi.

Module geoKeywordApi.
Definition getProjects := get "/keywords/projects" VUndef None.
Definition getProject (id : Z) :=
  get ("/keywords/projects/" ++ num_to_string id)%string VUndef None.
Definition getProjectKeywords (projectId : Z) :=
  get ("/keywords/projects/" ++ num_to_string projectId ++ "/keywords")%string VUndef None.
Definition createProject (data : value) := post "/keywords/projects" data None.
Definition createKeyword (projectId : Z) (data : value) :=
  post ("/keywords/projects/" ++ num_to_string projectId ++ "/keywords")%string data None.
Definition distill (data : value) := post "/keywords/distill" data None.
Definition generateQuestions (data : value) :=
  post "/keywords/generate-questions" data None.
End geoKeywordApi.

Module geoArticleApi.
Definition getArticles (params : value) := get "/geo/articles" params None.
Definition generate (data : value) :=
  post "/geo/generate" data (Some [("timeout", VNum 300000)]).
Definition checkQuality (id : Z) :=
  post ("/geo/articles/" ++ num_to_string id ++ "/check-quality")%string VUndef None.
Definition checkIndex (id : Z) :=
  post ("/geo/articles/" ++ num_to_string id ++ "/check-index")%string VUndef None.
Definition getDetail (id : Z) :=
  get ("/geo/articles/" ++ num_to_string id)%string VUndef None.
Definition delete (id : Z) :=
  del ("/geo/articles/" ++ num_to_string id)%string VUndef None.
End geoArticleApi.

Module indexCheckApi.
Definition check (data : value) := post "/index-check/check" data None.
Definition getRecords (params : value) := get "/index-check/records" params None.
Definition getTrend (keywordId : Z) (days : value) :=
  get ("/index-check/trend/" ++ num_to_string keywordId)%string
      (VObj [("days", default_arg days (VNum 7))]) None.
End indexCheckApi.

Module reportsApi.
Definition getOverview := get "/reports/overview" VUndef None.
Definition getTrends (days : value) :=
  get "/reports/trends" (VObj [("days", default_arg days (VNum 30))]) None.
Definition getIndexTrend (params : value) := get "/reports/trend/index" params None.
End reportsApi.

Module schedulerApi.
Definition getJobs := get "/scheduler/jobs" VUndef None.
Definition start := post "/scheduler/start" (VObj []) None.
Definition stop := post "/scheduler/stop" (VObj []) None.
End schedulerApi.

(** One constructor per facade operation, with the arguments of the call. *)
Inductive facade_call : Type :=
| Account_getList (params : value)
| Account_startAuth (data : value)
| Account_getAuthStatus (taskId : string)
| Account_update (id : Z) (data : value)
| Account_delete (id : Z)
| Keyword_getProjects
| Keyword_getProject (id : Z)
| Keyword_getProjectKeywords (projectId : Z)
| Keyword_createProject (data : value)
| Keyword_createKeyword (projectId : Z) (data : value)
| Keyword_distill (data : value)
| Keyword_generateQuestions (data : value)
| Article_getArticles (params : value)
| Article_generate (data : value)
| Article_checkQuality (id : Z)
| Article_checkIndex (id : Z)
| Article_getDetail (id : Z)
| Article_delete (id : Z)
| IndexCheck_check (data : value)
| IndexCheck_getRecords (params : value)
| IndexCheck_getTrend (keywordId : Z) (days : value)
| Reports_getOverview
| Reports_getTrends (days : value)
| Reports_getIndexTrend (params : value)
| Scheduler_getJobs
| Scheduler_start
| Scheduler_stop.

Definition invoke (c : facade_call) : Axios.transport_result -> M Axios.settled :=
  match c with
  | Account_getList params => accountApi.getList params
  | Account_startAuth data => accountApi.startAuth data
  | Account_getAuthStatus taskId => accountApi.getAuthStatus taskId
  | Account_update id data => accountApi.update id data
  | Account_delete id => accountApi.delete id
  | Keyword_getProjects => geoKeywordApi.getProjects
  | Keyword_getProject id => geoKeywordApi.getProject id
  | Keyword_getProjectKeywords projectId => geoKeywordApi.getProjectKeywords projectId
  | Keyword_createProject data => geoKeywordApi.createProject data
  | Keyword_createKeyword projectId data => geoKeywordApi.createKeyword projectId data
  | Keyword_distill data => geoKeywordApi.distill data
  | Keyword_generateQuestions data => geoKeywordApi.generateQuestions data
  | Article_getArticles params => geoArticleApi.getArticles params
  | Article_generate data => geoArticleApi.generate data
  | Article_checkQuality id => geoArticleApi.checkQuality id
  | Article_checkIndex id => geoArticleApi.checkIndex id
  | Article_getDetail id => geoArticleApi.getDetail id
  | Article_delete id => geoArticleApi.delete id
  | IndexCheck_check data => indexCheckApi.check data
  | IndexCheck_getRecords params => indexCheckApi.getRecords params
  | IndexCheck_getTrend keywordId days => indexCheckApi.getTrend keywordId days
  | Reports_getOverview => reportsApi.getOverview
  | Reports_getTrends days => reportsApi.getTrends days
  | Reports_getIndexTrend params => reportsApi.getIndexTrend params
  | Scheduler_getJobs => schedulerApi.getJobs
  | Scheduler_start => schedulerApi.start
  | Scheduler_stop => schedulerApi.stop
  end.

Definition is_generate (c : facade_call) : bool :=
  match c with
  | Article_generate _ => true
  | _ => false
  end.

(** *** Reading a trace *)

Definition start_world (d : Axios.Defaults) : world :=
  {| client := d; trace := [] |}.

Fixpoint sent (t : list effect) : list object :=
  match t with
  | [] => []
  | Send config :: t' => config :: sent t'
  | _ :: t' => sent t'
  end.

Fixpoint notifications (t : list effect) : list value :=
  match t with
  | [] => []
  | Notify m :: t' => m :: notifications t'
  | _ :: t' => notifications t'
  end.

(** What [console.error] received under a given label. *)
Fixpoint logged (label : string) (t : list effect) : list value :=
  match t with
  | [] => []
  | ConsoleError l arg :: t' =>
      if String.eqb l label then arg :: logged label t' else logged label t'
  | _ :: t' => logged label t'
  end.

(** The requests a call puts on the wire, whatever the exchange's end. *)
Definition wire (call : Axios.transport_result -> M Axios.settled)
  (net : Axios.transport_result) : list object :=
  sent (trace (fst (call net (start_world (instance VUndef))))).

(** ** views/geo/Articles.vue *)

Module Articles.

(** [loadProjects]: the new value of [projects] once the call has settled. *)
Definition loadProjects (outcome : Axios.settled) (projects : value) : value :=
  match outcome with
  | Axios.Resolved res =>
      if Array_isArray res then res else js_or (opt_chain res ["data"]) (VArr [])
  | Axios.Rejected _ => projects
  end.

(** [onProjectChange] with a project selected: [keywords] is emptied first. *)
Definition onProjectChange (outcome : Axios.settled) : value :=
  match outcome with
  | Axios.Resolved res =>
      if Array_isArray res then res else js_or (opt_chain res ["data"]) (VArr [])
  | Axios.Rejected _ => VArr []
  end.

(** The body of the [try] in [loadArticles] after the [await]. *)
Definition loadArticles_resolved (res : value) : completion value :=
  if Array_isArray res then Normal res
  else
    c <-! (if truthy res
           then d <-! get_prop res "data"; Normal (Array_isArray d)
           else Normal false);
    if c then get_prop res "data" else Normal (VArr []).

(** [loadArticles]: the new value of [articles]; the [catch] only logs. *)
Definition loadArticles (outcome : Axios.settled) (articles : value) : value :=
  match outcome with
  | Axios.Resolved res =>
      match loadArticles_resolved res with
      | Normal v => v
      | Throw _ => articles
      end
  | Axios.Rejected _ => articles
  end.

End Articles.

(** ** views/geo/Monitor.vue *)

Module Monitor.

(** [data.map(f)]: only an array has [map]; calling it on anything else is a
    [TypeError]. *)
Fixpoint map_items (f : value -> completion value) (items : list value)
  : completion (list value) :=
  match items with
  | [] => Normal []
  | d :: items' =>
      y <-! f d; ys <-! map_items f items'; Normal (y :: ys)
  end.

Definition array_map (f : value -> completion value) (v : value)
  : completion (list value) :=
  match v with
  | VArr items => map_items f items
  | _ => Throw TypeError
  end.

(** [const data = Array.isArray(res) ? res : (res?.data || [])] in [initChart]. *)
Definition initChart_data (res : value) : value :=
  if Array_isArray res then res else js_or (opt_chain res ["data"]) (VArr []).

(** The two series [initChart] hands to the chart: the x axis and the line. *)
Definition initChart_series (res : value) : completion (list value * list value) :=
  let data := initChart_data res in
  xs <-! array_map (fun d => get_prop d "date") data;
  ys <-! array_map (fun d => c <-! get_prop d "keyword_found_count";
                            Normal (js_or c (VNum 0))) data;
  Normal (xs, ys).

(** [onProjectChange] with a project selected. *)
Definition onProjectChange (outcome : Axios.settled) : value :=
  match outcome with
  | Axios.Resolved res =>
      if Array_isArray res then res else js_or (opt_chain res ["data"]) (VArr [])
  | Axios.Rejected _ => VArr []
  end.

(** [projects.value = ...] in [onMounted]. *)
Definition onMounted_projects (pRes : value) : value :=
  if Array_isArray pRes then pRes else js_or (opt_chain pRes ["data"]) (VArr []).

(** [logs.value.push(e)] and [logs.value.shift()]. *)
Definition push (logs : list value) (e : value) : list value := logs ++ [e].
Definition shift (logs : list value) : list value := tl logs.

(** The body of the [try] in [socket.onmessage]; [parsed] is what
    [JSON.parse(event.data)] gave, or the exception it raised. *)
Definition onmessage_try (parsed : completion value) (logs : list value)
  : completion (list value) :=
  data <-! parsed;
  c <-! (if truthy data then m <-! get_prop data "message"; Normal (truthy m)
         else Normal false);
  if c then
    t <-! get_prop data "time";
    l <-! get_prop data "level";
    m <-! get_prop data "message";
    let logs1 := push logs (VObj [("time", js_or t (VStr EmptyString));
                                  ("level", js_or l (VStr "INFO"));
                                  ("message", m)]) in
    Normal (if (50 <? length logs1)%nat then shift logs1 else logs1)
  else Normal logs.

(** [socket.onmessage]: the empty [catch] leaves [logs] as it was; nothing
    after the [push] can throw. *)
Definition onmessage (parsed : completion value) (logs : list value) : list value :=
  match onmessage_try parsed logs with
  | Normal logs' => logs'
  | Throw _ => logs
  end.

(** The log list after a run of events, from [ref([])]. *)
Definition run_events (events : list (completion value)) : list value :=
  fold_left (fun logs ev => onmessage ev logs) events [].

End Monitor.

(** ** The error handler, described *)

(** The three values the handler probes. *)
Definition probe_detail (error : value) : value :=
  opt_chain error ["response"; "data"; "detail"].
Definition probe_message (error : value) : value :=
  opt_chain error ["response"; "data"; "message"].
Definition probe_transport (error : value) : value :=
  opt_chain error ["message"].

Definition probe_status (error : value) : value :=
  opt_chain error ["response"; "status"].

(** The first truthy probe, else the fallback literal. *)
Definition first_truthy (error : value) : value :=
  if truthy (probe_detail error) then probe_detail error
  else if truthy (probe_message error) then probe_message error
  else if truthy (probe_transport error) then probe_transport error
  else VStr fallback_message.

(** The message as the specification words it: a probe counts when the
    string it looks for is there, whatever the string. *)
Definition present (v : value) : bool :=
  match v with
  | VStr _ => true
  | _ => false
  end.

Definition spec_first_present (error : value) : value :=
  if present (probe_detail error) then probe_detail error
  else if present (probe_message error) then probe_message error
  else if present (probe_transport error) then probe_transport error
  else VStr fallback_message.

(** A probe on which truthiness and presence agree: a non-empty string, or
    a falsy value that is not a string. *)
Definition plain (v : value) : bool :=
  match v with
  | VStr s => negb (String.eqb s EmptyString)
  | _ => negb (truthy v)
  end.

(** What the handler adds to the trace. *)
Definition onRejected_effects (error : value) : list effect :=
  [ConsoleError label_response_error error]
  ++ (if strict_eq_num (probe_status error) 500
      then [ConsoleError label_500_detail (prop (prop error "response") "data")]
      else [])
  ++ [Notify (first_truthy error)].

(** ** Comparing request descriptors *)

(** A descriptor with the given keys left out. *)
Definition without (ks : list string) (o : object) : object :=
  filter (fun kv => negb (existsb (String.eqb (fst kv)) ks)) o.

Definition config_has_key (k : string) (config : option object) : bool :=
  match config with
  | Some src => has_key k src
  | None => false
  end.

Create HintDb facades.
#[global] Hint Unfold
  accountApi.getList accountApi.startAuth accountApi.getAuthStatus
  accountApi.update accountApi.delete
  geoKeywordApi.getProjects geoKeywordApi.getProject
  geoKeywordApi.getProjectKeywords geoKeywordApi.createProject
  geoKeywordApi.createKeyword geoKeywordApi.distill
  geoKeywordApi.generateQuestions
  geoArticleApi.getArticles geoArticleApi.generate geoArticleApi.checkQuality
  geoArticleApi.checkIndex geoArticleApi.getDetail geoArticleApi.delete
  indexCheckApi.check indexCheckApi.getRecords indexCheckApi.getTrend
  reportsApi.getOverview reportsApi.getTrends reportsApi.getIndexTrend
  schedulerApi.getJobs schedulerApi.start schedulerApi.stop
  get post put del : facades.

(** ** Sample inputs *)

(** An error status whose body has an empty [detail] next to a [message]. *)
Definition error_empty_detail : value :=
  VObj [("message", VStr "Request failed with status code 400");
        ("response",
         VObj [("status", VNum 400);
               ("data", VObj [("detail", VStr EmptyString);
                              ("message", VStr "bad request")])])].

(** An internal server error with a structured body. *)
Definition error_500 : value :=
  VObj [("message", VStr "Request failed with status code 500");
        ("response",
         VObj [("status", VNum 500);
               ("data", VObj [("detail", VStr "database is locked")])])].

(** A timeout: the transport gives a message and no response. *)
Definition error_timeout : value :=
  VObj [("message", VStr "timeout of 30000ms exceeded")].

(** An error object with nothing the handler looks for. *)
Definition error_bare : value := VObj [].

Definition world0 : world := start_world (instance VUndef).

(** A response of the usual kind, for running a call to its end. *)
Definition response_ok : Axios.Response :=
  {| Axios.data := VObj [("success", VBool true)];
     Axios.status := 200;
     Axios.statusText := "OK";
     Axios.headers := [("content-type", VStr "application/json")] |}.

(** A body that wraps a page object, not a list, in its [data] field. *)
Definition body_paged : value :=
  VObj [("success", VBool true);
        ("data", VObj [("items", VArr [VObj [("date", VStr "2026-02-01");
                                             ("keyword_found_count", VNum 3)]]);
                       ("total", VNum 1)])].

(** A log event as the backend streams it. *)
Definition log_event : value :=
  VObj [("time", VStr "12:00:01"); ("level", VStr "SUCCESS");
        ("message", VStr "published")].

(** ** More of services/api/index.ts: calls one after the other *)

(** A run of facade calls on the shared client, each with the end of its
    exchange; a call starts when the one before it has settled. *)
Fixpoint run_calls (calls : list (facade_call * Axios.transport_result))
  (w : world) : world :=
  match calls with
  | [] => w
  | (c, net) :: rest => run_calls rest (fst (invoke c net w))
  end.

(** An exchange that ended in an error the handler can read. *)
Definition failed_defined (net : Axios.transport_result) : bool :=
  match net with
  | Axios.Failed error => negb (is_nullish error)
  | Axios.Fulfilled _ => false
  end.

Definition is_failed (net : Axios.transport_result) : bool :=
  match net with
  | Axios.Failed _ => true
  | Axios.Fulfilled _ => false
  end.

(** The promise a caller awaits: an exception thrown inside the interceptor
    rejects it, with the error object thrown. *)
Definition thrown_value (e : exn) : value :=
  match e with
  | TypeError => VObj [("name", VStr "TypeError")]
  end.

Definition settle (c : completion Axios.settled) : Axios.settled :=
  match c with
  | Normal s => s
  | Throw e => Axios.Rejected (thrown_value e)
  end.

(** [loadArticles] from its call of [geoArticleApi.getArticles()] to the new
    value of [articles]. *)
Definition loadArticles_run (net : Axios.transport_result) (articles : value)
  (w : world) : world * value :=
  let r := geoArticleApi.getArticles VUndef net w in
  (fst r, Articles.loadArticles (settle (snd r)) articles).

(** The [method] of a descriptor, as a string when it is one. *)
Definition method_of (cfg : object) : option string :=
  match obj_get "method" cfg with
  | VStr m => Some m
  | _ => None
  end.

Definition url_of (cfg : object) : option string :=
  match obj_get "url" cfg with
  | VStr u => Some u
  | _ => None
  end.


Fixpoint keys_distinct (o : object) : bool :=
  match o with
  | [] => true
  | (k, _) :: o' => negb (has_key k o') && keys_distinct o'
  end.

(** ** More of views/geo/Articles.vue *)

Module ArticleTools.

(** The names every object literal inherits from [Object.prototype]. *)
Definition object_prototype_names : list string :=
  ["constructor"; "__proto__"; "hasOwnProperty"; "isPrototypeOf";
   "propertyIsEnumerable"; "toLocaleString"; "toString"; "valueOf";
   "__defineGetter__"; "__defineSetter__"; "__lookupGetter__";
   "__lookupSetter__"].

(** What [lit[s] || d] gives when [lit] is an object literal with string
    values: one of the strings, or the inherited member of that name, which
    is a function or an object and so truthy. *)
Inductive looked : Type :=
| Own (v : string)
| Inherited (name : string).

Fixpoint own_get (k : string) (lit : list (string * string)) : option string :=
  match lit with
  | [] => None
  | (k', v) :: lit' => if String.eqb k k' then Some v else own_get k lit'
  end.

(** [lit[k]]: [None] is [undefined]. *)
Definition literal_get (lit : list (string * string)) (k : string) : option looked :=
  match own_get k lit with
  | Some v => Some (Own v)
  | None =>
      if existsb (String.eqb k) object_prototype_names
      then Some (Inherited k) else None
  end.

(** [m || d] *)
Definition or_string (m : option looked) (d : string) : looked :=
  match m with
  | Some (Own v) => if String.eqb v EmptyString then Own d else Own v
  | Some (Inherited name) => Inherited name
  | None => Own d
  end.

Definition publish_status_types : list (string * string) :=
  [("draft", "info"); ("scheduled", "warning"); ("publishing", "primary");
   ("published", "success"); ("failed", "danger")].

Definition publish_status_texts : list (string * string) :=
  [("draft", "草稿"); ("scheduled", "待发布"); ("publishing", "发布中");
   ("published", "已发布"); ("failed", "失败")].

Definition index_status_types : list (string * string) :=
  [("uncheck", "info"); ("indexed", "success"); ("not_indexed", "danger")].

Definition index_status_texts : list (string * string) :=
  [("uncheck", "未检测"); ("indexed", "已收录"); ("not_indexed", "未收录")].

Definition platform_names : list (string * string) :=
  [("zhihu", "知乎"); ("baijiahao", "百家号"); ("sohu", "搜狐"); ("toutiao", "头条")].

Definition getPublishStatusType (s : string) : looked :=
  or_string (literal_get publish_status_types s) "info".

Definition getPublishStatusText (s : string) : looked :=
  or_string (literal_get publish_status_texts s) s.

Definition getIndexStatusType (s : string) : looked :=
  or_string (literal_get index_status_types s) "info".

Definition getIndexStatusText (s : string) : looked :=
  or_string (literal_get index_status_texts s) "未检测".

Definition getPlatformName (p : string) : looked :=
  or_string (literal_get platform_names p) p.

(** [s >= 80 ? 'text-success' : (s >= 60 ? 'text-warning' : 'text-danger')] *)
Definition getScoreClass (s : Z) : string :=
  if 80 <=? s then "text-success"
  else if 60 <=? s then "text-warning" else "text-danger".

(** How good a score class is, for comparing two of them. *)
Definition class_rank (c : string) : Z :=
  if String.eqb c "text-success" then 2
  else if String.eqb c "text-warning" then 1 else 0.

(** [generateForm]: both ids are a number or [null]. *)
Record GenerateForm : Type := {
  projectId : option Z;
  keywordId : option Z;
  platform : string;
  publishTime : string
}.

Definition id_value (id : option Z) : value :=
  match id with
  | Some z => VNum z
  | None => VNull
  end.

(** [v === id] for an [id] that is a number or [null]. *)
Definition strict_eq_id (v : value) (id : option Z) : bool :=
  match id, v with
  | Some z, VNum z' => z' =? z
  | None, VNull => true
  | _, _ => false
  end.

(** [items.find(pred)]: the first item the predicate accepts, else
    [undefined]; the predicate may throw. *)
Fixpoint find_items (pred : value -> completion bool) (items : list value)
  : completion value :=
  match items with
  | [] => Normal VUndef
  | p :: items' =>
      b <-! pred p; if b then Normal p else find_items pred items'
  end.

(** Only an array has [find]. *)
Definition array_find (pred : value -> completion bool) (v : value)
  : completion value :=
  match v with
  | VArr items => find_items pred items
  | _ => Throw TypeError
  end.

(** [generateArticle] up to its call of [geoArticleApi.generate]: the
    argument of that call, or [None] when the function returns at its guard
    without calling. *)
Definition generateArticle_request (projects : value) (form : GenerateForm)
  : completion (option value) :=
  if negb (truthy (id_value (keywordId form))) then Normal None
  else
    project <-! array_find
                  (fun p => id <-! get_prop p "id";
                            Normal (strict_eq_id id (projectId form)))
                  projects;
    Normal (Some (VObj
      [("keyword_id", id_value (keywordId form));
       ("company_name",
        js_or (opt_chain project ["company_name"]) (VStr "默认公司"));
       ("platform", VStr (platform form))])).

End ArticleTools.

(** ** More of views/geo/Monitor.vue *)

Module MonitorStats.

(** [ref({ total_keywords: 0, keyword_found: 0, company_found: 0,
    overall_hit_rate: 0 })] *)
Definition initial_stats : value :=
  VObj [("total_keywords", VNum 0); ("keyword_found", VNum 0);
        ("company_found", VNum 0); ("overall_hit_rate", VNum 0)].

(** [loadStats]: the new value of [stats]; [res.data || res || {}] sits in a
    [try] whose [catch] only logs. *)
Definition loadStats (outcome : Axios.settled) (stats : value) : value :=
  match outcome with
  | Axios.Resolved res =>
      match (d <-! get_prop res "data";
             Normal (js_or (js_or d res) (VObj [])))
      with
      | Normal v => v
      | Throw _ => stats
      end
  | Axios.Rejected _ => stats
  end.

(** One card of [statConfigs]. *)
Definition stat_card (label : string) (shown : value) (unit class : string) : value :=
  VObj [("label", VStr label); ("value", shown); ("unit", VStr unit);
        ("class", VStr class)].

(** The computed [statConfigs]. *)
Definition statConfigs (stats : value) : completion (list value) :=
  a <-! get_prop stats "total_keywords";
  b <-! get_prop stats "keyword_found";
  c <-! get_prop stats "company_found";
  d <-! get_prop stats "overall_hit_rate";
  Normal [stat_card "监测关键词" (js_or a (VNum 0)) EmptyString "stat-blue";
          stat_card "关键词命中" (js_or b (VNum 0)) EmptyString "stat-green";
          stat_card "公司名命中" (js_or c (VNum 0)) EmptyString "stat-orange";
          stat_card "总体命中率" (js_or d (VNum 0)) "%" "stat-purple"].

(** [stats] after a run of [loadStats], from its initial value. *)
Definition stats_after (outcomes : list Axios.settled) : value :=
  fold_left (fun stats outcome => loadStats outcome stats) outcomes initial_stats.

(** The entry [socket.onmessage] makes of a message, when it makes one. *)
Definition accepted_entry (parsed : completion value) : option value :=
  match parsed with
  | Normal data =>
      if truthy data && truthy (prop data "message")
      then Some (VObj [("time", js_or (prop data "time") (VStr EmptyString));
                       ("level", js_or (prop data "level") (VStr "INFO"));
                       ("message", prop data "message")])
      else None
  | Throw _ => None
  end.

Fixpoint accepted_entries (events : list (completion value)) : list value :=
  match events with
  | [] => []
  | ev :: events' =>
      match accepted_entry ev with
      | Some e => e :: accepted_entries events'
      | None => accepted_entries events'
      end
  end.

(** What a line of the log console can rely on. *)
Definition entry_ok (e : value) : Prop :=
  truthy (prop e "message") = true
  /\ truthy (prop e "level") = true
  /\ (truthy (prop e "time") = true \/ prop e "time" = VStr EmptyString).

(** The last [n] items of a list. *)
Definition lastn {A} (n : nat) (l : list A) : list A :=
  skipn (length l - n) l.

End MonitorStats.

(** ** vite.config.ts *)

Module ViteConfig.

(** [s.replace(/^pat/, rep)] for a pattern that is plain text: only a match
    at the start of [s] is replaced. *)
Definition replace_leading (pat rep s : string) : string :=
  if String.prefix pat s
  then (rep ++ String.substring (String.length pat)
                 (String.length s - String.length pat) s)%string
  else s.

(** [rewrite: (path) => path.replace(/^\/api/, '/api')] *)
Definition rewrite (path : string) : string :=
  replace_leading "/api" "/api" path.

End ViteConfig.

(** * Properties *)

(** ** Small facts about the value model *)

Lemma get_prop_defined (v : value) (k : string) :
  is_nullish v = false -> get_prop v k = Normal (prop v k).
Proof. unfold get_prop. now intros ->. Qed.

Example num_to_string_samples :
  num_to_string 7 = "7" /\ num_to_string 0 = "0" /\ num_to_string (-12) = "-12".
Proof. repeat split. Qed.

Lemma truthy_defined (v : value) : truthy v = true -> is_nullish v = false.
Proof. now destruct v. Qed.

Lemma strict_eq_num_true (v : value) (n : Z) :
  strict_eq_num v n = true <-> v = VNum n.
Proof.
  destruct v; simpl; split; intro H; try discriminate.
  - apply Z.eqb_eq in H. now subst.
  - injection H as ->. apply Z.eqb_refl.
Qed.

(** ** Reading traces *)

Lemma sent_app (t u : list effect) : sent (t ++ u) = sent t ++ sent u.
Proof.
  induction t as [|e t IH]; simpl; [reflexivity|].
  destruct e; simpl; now rewrite IH.
Qed.

Lemma notifications_app (t u : list effect) :
  notifications (t ++ u) = notifications t ++ notifications u.
Proof.
  induction t as [|e t IH]; simpl; [reflexivity|].
  destruct e; simpl; now rewrite IH.
Qed.

Lemma logged_app (label : string) (t u : list effect) :
  logged label (t ++ u) = logged label t ++ logged label u.
Proof.
  induction t as [|e t IH]; simpl; [reflexivity|].
  destruct e; simpl; try destruct (String.eqb label0 label); simpl; now rewrite IH.
Qed.

(** ** The error handler *)

Lemma plain_truthy_present (v : value) : plain v = true -> truthy v = present v.
Proof. destruct v; simpl; intro H; try reflexivity; try discriminate; auto.
  all: try (apply negb_true_iff in H; exact H).
Qed.

(** The handler on an error value that is not [undefined] or [null]: every
    property read is guarded, so nothing throws. *)
Section DefinedError.

Variable error : value.
Hypothesis error_defined : is_nullish error = false.

Lemma build_message_defined : build_message error = Normal (first_truthy error).
Proof.
  unfold build_message, first_truthy, probe_detail, probe_message, probe_transport.
  rewrite !get_prop_defined by exact error_defined.
  cbn [cbind opt_chain]. rewrite error_defined.
  set (d := if is_nullish (prop error "response") then VUndef else _).
  set (m := if is_nullish (prop error "response") then VUndef else _).
  unfold or_else.
  destruct (truthy d) eqn:Hd; [now repeat (rewrite Hd; cbv iota)|].
  destruct (truthy m) eqn:Hm; [now repeat (rewrite Hm; cbv iota)|].
  destruct (truthy (prop error "message")) eqn:Ht;
    [now repeat (rewrite Ht; cbv iota)|reflexivity].
Qed.

Lemma response_status_defined : response_status error = Normal (probe_status error).
Proof.
  unfold response_status, probe_status.
  rewrite get_prop_defined by exact error_defined.
  cbn [cbind opt_chain]. now rewrite error_defined.
Qed.

(** At status 500 there is a response to read the body from. *)
Lemma response_data_at_500 :
  strict_eq_num (probe_status error) 500 = true ->
  response_data error = Normal (prop (prop error "response") "data").
Proof.
  intro H5. unfold response_data.
  rewrite get_prop_defined by exact error_defined. cbn [cbind].
  apply get_prop_defined.
  unfold probe_status in H5. cbn [opt_chain] in H5. rewrite error_defined in H5.
  destruct (is_nullish (prop error "response")); [discriminate|reflexivity].
Qed.

(** The handler completes, returns the rejection of the same value, leaves
    the client alone and appends [onRejected_effects]. *)
Lemma onRejected_run (w : world) :
  onRejected error w =
    ({| client := client w; trace := trace w ++ onRejected_effects error |},
     Normal (Axios.Rejected error)).
Proof.
  unfold onRejected, onRejected_effects, console_error, ElMessage_error.
  unfold bind at 1. unfold emit at 1. cbv iota beta.
  unfold bind at 1. unfold lift at 1.
  rewrite build_message_defined. cbv iota beta.
  unfold bind at 1. unfold lift at 1.
  rewrite response_status_defined. cbv iota beta.
  destruct (strict_eq_num (probe_status error) 500) eqn:H5.
  - unfold bind, lift, emit, ret.
    rewrite (response_data_at_500 H5). cbn.
    now rewrite <- !app_assoc.
  - unfold bind, emit, ret. cbn.
    now rewrite <- !app_assoc.
Qed.

(** A call that fails. *)
Lemma request_failed_run (config : object) (w : world) :
  request config (Axios.Failed error) w =
    ({| client := client w;
        trace := trace w ++ Send config :: onRejected_effects error |},
     Normal (Axios.Rejected error)).
Proof.
  unfold request, instance_request, request_interceptor.
  unfold bind, emit. cbv iota beta.
  rewrite onRejected_run. cbn [client trace].
  now rewrite <- app_assoc.
Qed.

End DefinedError.

(** A call that succeeds. *)
Lemma request_fulfilled_run (config : object) (response : Axios.Response) (w : world) :
  request config (Axios.Fulfilled response) w =
    ({| client := client w; trace := trace w ++ [Send config] |},
     Normal (Axios.Resolved (Axios.data response))).
Proof. reflexivity. Qed.

(** ** C1: how the surfaced message is chosen *)

(** C1, as stated, fails: with an empty [detail] string next to a [message]
    in the body, the first value that is present is the empty [detail], and
    the handler surfaces the [message] instead. *)
Lemma C1_empty_detail_is_skipped :
  spec_first_present error_empty_detail = VStr EmptyString
  /\ build_message error_empty_detail = Normal (VStr "bad request")
  /\ build_message error_empty_detail
     <> Normal (spec_first_present error_empty_detail).
Proof. repeat split. discriminate. Qed.

(** C1, amended: for an error value that is not [undefined] or [null], the
    message is the first truthy value among [response.data.detail],
    [response.data.message] and the transport's [message], probed in that
    order, and the fallback literal when none is truthy; a value that is
    there but falsy (the empty string, 0, false, null) is passed over, and a
    truthy value is taken whatever its type.  Where every probed value is a
    non-empty string or a falsy non-string, this is the first present
    string. *)
Theorem C1_message_is_first_truthy (error : value) :
  is_nullish error = false ->
  (truthy (probe_detail error) = true ->
   build_message error = Normal (probe_detail error))
  /\ (truthy (probe_detail error) = false ->
      truthy (probe_message error) = true ->
      build_message error = Normal (probe_message error))
  /\ (truthy (probe_detail error) = false ->
      truthy (probe_message error) = false ->
      truthy (probe_transport error) = true ->
      build_message error = Normal (probe_transport error))
  /\ (truthy (probe_detail error) = false ->
      truthy (probe_message error) = false ->
      truthy (probe_transport error) = false ->
      build_message error = Normal (VStr fallback_message))
  /\ (plain (probe_detail error) = true ->
      plain (probe_message error) = true ->
      plain (probe_transport error) = true ->
      build_message error = Normal (spec_first_present error)).
Proof.
  intro Hn. rewrite (build_message_defined error Hn).
  unfold first_truthy, spec_first_present.
  repeat split.
  - now intros ->.
  - now intros -> ->.
  - now intros -> -> ->.
  - now intros -> -> ->.
  - intros Hd Hm Ht.
    now rewrite (plain_truthy_present _ Hd), (plain_truthy_present _ Hm),
      (plain_truthy_present _ Ht).
Qed.

Lemma C1_message_is_first_truthy_witness :
  is_nullish error_empty_detail = false
  /\ build_message error_empty_detail = Normal (VStr "bad request").
Proof.
  split; [reflexivity|].
  exact (proj1 (proj2 (C1_message_is_first_truthy error_empty_detail eq_refl))
           eq_refl eq_refl).
Defined.

(** ** C2: one notification, then the same error again *)

(** C2: a failed call whose error value is not [undefined] or [null] ends
    rejected with that very value; on the way the handler shows exactly one
    notification, which carries the message it built, the request went to
    the transport once and no more, and the client is as it was. *)
Theorem C2_notify_once_and_reject (config : object) (error : value) (w : world) :
  is_nullish error = false ->
  let r := request config (Axios.Failed error) w in
  snd r = Normal (Axios.Rejected error)
  /\ (exists message,
        build_message error = Normal message
        /\ notifications (trace (fst r)) = notifications (trace w) ++ [message])
  /\ sent (trace (fst r)) = sent (trace w) ++ [config]
  /\ client (fst r) = client w.
Proof.
  intros Hn r. subst r. rewrite (request_failed_run error Hn config w).
  cbn [fst snd trace client].
  split; [reflexivity|]. split; [|split; [|reflexivity]].
  - exists (first_truthy error). split; [now apply build_message_defined|].
    rewrite notifications_app. f_equal.
    unfold onRejected_effects.
    now destruct (strict_eq_num (probe_status error) 500).
  - rewrite sent_app. f_equal.
    unfold onRejected_effects.
    now destruct (strict_eq_num (probe_status error) 500).
Qed.

Lemma C2_notify_once_and_reject_witness :
  is_nullish error_timeout = false
  /\ snd (request [("method", VStr "GET"); ("url", VStr "/accounts")]
            (Axios.Failed error_timeout) world0)
     = Normal (Axios.Rejected error_timeout).
Proof.
  split; [reflexivity|].
  exact (proj1 (C2_notify_once_and_reject
                  [("method", VStr "GET"); ("url", VStr "/accounts")]
                  error_timeout world0 eq_refl)).
Defined.

(** ** C3: the success handler *)

(** C3: a call that succeeds resolves with the body of the response and
    nothing else happens besides the one send; the result does not depend on
    the status, the status text or the headers; and a body that itself has a
    [data] field is handed on whole, not unwrapped a second time; every
    facade operation resolves with that body as it is. *)
Theorem C3_body_passed_through (config : object) (response : Axios.Response) (w : world) :
  request config (Axios.Fulfilled response) w =
    ({| client := client w; trace := trace w ++ [Send config] |},
     Normal (Axios.Resolved (Axios.data response)))
  /\ (forall st txt hd,
        onFulfilled {| Axios.data := Axios.data response; Axios.status := st;
                       Axios.statusText := txt; Axios.headers := hd |}
        = onFulfilled response)
  /\ (forall inner rest st txt hd,
        onFulfilled {| Axios.data := VObj (("data", inner) :: rest);
                       Axios.status := st; Axios.statusText := txt;
                       Axios.headers := hd |}
        = VObj (("data", inner) :: rest))
  /\ (forall c : facade_call,
        snd (invoke c (Axios.Fulfilled response) w)
        = Normal (Axios.Resolved (Axios.data response))).
Proof.
  repeat split. intro c. destruct c; reflexivity.
Qed.

(** ** C4: the extra log line at status 500 *)

(** C4: for an error value that is not [undefined] or [null], the handler
    logs the response body under the 500 label exactly when
    [error.response?.status] is the number 500, and nothing under that label
    otherwise; either way it shows exactly one notification. *)
Theorem C4_dump_iff_status_500 (error : value) (w : world) :
  is_nullish error = false ->
  let w' := fst (onRejected error w) in
  (probe_status error = VNum 500 ->
   logged label_500_detail (trace w')
   = logged label_500_detail (trace w) ++ [prop (prop error "response") "data"])
  /\ (probe_status error <> VNum 500 ->
      logged label_500_detail (trace w') = logged label_500_detail (trace w))
  /\ length (notifications (trace w')) = S (length (notifications (trace w))).
Proof.
  intros Hn w'. subst w'. rewrite (onRejected_run error Hn w).
  cbn [fst trace]. rewrite logged_app, notifications_app.
  unfold onRejected_effects.
  repeat split.
  - intro H5. apply strict_eq_num_true in H5. rewrite H5. reflexivity.
  - intro H5.
    destruct (strict_eq_num (probe_status error) 500) eqn:E.
    + apply strict_eq_num_true in E. contradiction.
    + cbn. now rewrite app_nil_r.
  - rewrite length_app.
    destruct (strict_eq_num (probe_status error) 500); cbn; lia.
Qed.

Lemma C4_dump_iff_status_500_witness :
  is_nullish error_500 = false
  /\ logged label_500_detail (trace (fst (onRejected error_500 world0)))
     = [VObj [("detail", VStr "database is locked")]].
Proof.
  split; [reflexivity|].
  exact (proj1 (C4_dump_iff_status_500 error_500 world0 eq_refl) eq_refl).
Defined.

(** ** C5: the handler does not throw on an error object *)

(** C5: on every error value that is not [undefined] or [null], whatever its
    shape, building the message completes and so does the handler, which
    returns the rejection; and when none of the three probed values is
    truthy (in particular when they are missing) the message built and
    shown is the fallback literal. *)
Theorem C5_handler_never_throws (error : value) (w : world) :
  is_nullish error = false ->
  (exists message, build_message error = Normal message)
  /\ snd (onRejected error w) = Normal (Axios.Rejected error)
  /\ (truthy (probe_detail error) = false ->
      truthy (probe_message error) = false ->
      truthy (probe_transport error) = false ->
      build_message error = Normal (VStr fallback_message)
      /\ notifications (trace (fst (onRejected error w)))
         = notifications (trace w) ++ [VStr fallback_message]).
Proof.
  intro Hn. rewrite (onRejected_run error Hn w), (build_message_defined error Hn).
  cbn [fst snd trace].
  split; [now eexists|]. split; [reflexivity|].
  intros Hd Hm Ht.
  assert (E : first_truthy error = VStr fallback_message).
  { unfold first_truthy. now rewrite Hd, Hm, Ht. }
  rewrite notifications_app. unfold onRejected_effects. rewrite E.
  split; [reflexivity|]. f_equal.
  now destruct (strict_eq_num (probe_status error) 500).
Qed.

Lemma C5_handler_never_throws_witness :
  is_nullish error_bare = false
  /\ build_message error_bare = Normal (VStr fallback_message)
  /\ snd (onRejected error_bare world0) = Normal (Axios.Rejected error_bare).
Proof.
  split; [reflexivity|].
  pose proof (C5_handler_never_throws error_bare world0 eq_refl) as H.
  split.
  - exact (proj1 (proj2 (proj2 H) eq_refl eq_refl eq_refl)).
  - exact (proj1 (proj2 H)).
Defined.

(** Outside the claim: the handler's first property read is not guarded, so
    a rejection value of [undefined] makes the handler itself throw, after
    the first log line and before any notification. *)
Remark onRejected_undefined_throws :
  onRejected VUndef world0 =
    ({| client := client world0;
        trace := [ConsoleError label_response_error VUndef] |},
     Throw TypeError).
Proof. reflexivity. Qed.

(** ** What a call puts on the wire *)

Lemma request_trace (config : object) (net : Axios.transport_result) (w : world) :
  exists rest,
    trace (fst (request config net w)) = trace w ++ Send config :: rest
    /\ sent rest = []
    /\ client (fst (request config net w)) = client w.
Proof.
  destruct net as [response|error].
  - exists []. repeat split. 
  - destruct (is_nullish error) eqn:Hn.
    + exists [ConsoleError label_response_error error].
      destruct error; try discriminate Hn; cbn; rewrite <- app_assoc; repeat split.
    + rewrite (request_failed_run error Hn config w).
      exists (onRejected_effects error). repeat split.
      unfold onRejected_effects.
      now destruct (strict_eq_num (probe_status error) 500).
Qed.

Lemma wire_request (config : object) (net : Axios.transport_result) :
  wire (request config) net = [config].
Proof.
  unfold wire.
  destruct (request_trace config net (start_world (instance VUndef)))
    as (rest & -> & Hrest & _).
  cbn. now rewrite Hrest.
Qed.

Lemma request_keeps_client (config : object) (net : Axios.transport_result) (w : world) :
  client (fst (request config net w)) = client w.
Proof. now destruct (request_trace config net w) as (rest & _ & _ & ->). Qed.

(** ** Objects *)

Lemma has_key_obj_set (k k' : string) (v : value) (o : object) :
  has_key k (obj_set k' v o) = (String.eqb k k' || has_key k o)%bool.
Proof.
  induction o as [|[k0 v0] o IH]; cbn.
  - reflexivity.
  - destruct (String.eqb k' k0) eqn:E; cbn.
    + apply String.eqb_eq in E. subst k0.
      now destruct (String.eqb k k').
    + rewrite IH. now destruct (String.eqb k k'), (String.eqb k k0).
Qed.

Lemma has_key_assign (k : string) (src base : object) :
  has_key k (assign base src) = (has_key k base || has_key k src)%bool.
Proof.
  unfold assign. revert base.
  induction src as [|[k0 v0] src IH]; intro base; cbn.
  - now rewrite orb_false_r.
  - rewrite IH, has_key_obj_set.
    now destruct (has_key k base), (String.eqb k k0), (has_key k src).
Qed.

Lemma has_key_spread (k : string) (base : object) (config : option object) :
  has_key k (spread base config) = (has_key k base || config_has_key k config)%bool.
Proof.
  destruct config as [src|]; cbn.
  - apply has_key_assign.
  - now rewrite orb_false_r.
Qed.

Lemma without_obj_set (ks : list string) (k : string) (v : value) (o : object) :
  without ks (obj_set k v o) =
    if existsb (String.eqb k) ks then without ks o
    else obj_set k v (without ks o).
Proof.
  unfold without.
  induction o as [|[k0 v0] o IH]; cbn.
  - now destruct (existsb (String.eqb k) ks).
  - destruct (String.eqb k k0) eqn:E; cbn.
    + apply String.eqb_eq in E. subst k0.
      destruct (existsb (String.eqb k) ks); cbn; [reflexivity|].
      now rewrite String.eqb_refl.
    + rewrite IH.
      destruct (existsb (String.eqb k0) ks); cbn;
        destruct (existsb (String.eqb k) ks); cbn; try reflexivity.
      now rewrite E.
Qed.

(** What is left of a merge once keys are dropped only depends on what is
    left of its base. *)
Lemma without_assign (ks : list string) (src base base' : object) :
  without ks base = without ks base' ->
  without ks (assign base src) = without ks (assign base' src).
Proof.
  unfold assign. revert base base'.
  induction src as [|[k v] src IH]; intros base base' H; cbn.
  - exact H.
  - apply IH. rewrite !without_obj_set.
    destruct (existsb (String.eqb k) ks); now rewrite H.
Qed.

Lemma without_spread (ks : list string) (config : option object) (base base' : object) :
  without ks base = without ks base' ->
  without ks (spread base config) = without ks (spread base' config).
Proof.
  destruct config as [src|]; cbn; [apply without_assign|trivial].
Qed.

(** ** C6: the verb helpers *)

(** C6: for every url and second argument, [get] and [del] send the second
    argument as [params] and [post] and [put] send it as [data], with their
    own method and nothing else.  With any per-call config merged in, the
    four descriptors still agree once [method], [params] and [data] are left
    out, [get] and [del] agree on all but [method], so do [post] and [put],
    and unless the config itself names [data], what [get] and [del] send has
    no [data] at all (likewise for [params] with [post] and [put]). *)
Theorem C6_verbs_method_and_slot (url : string) (payload : value)
  (net : Axios.transport_result) :
  wire (get url payload None) net
  = [[("method", VStr "GET"); ("url", VStr url); ("params", payload)]]
  /\ wire (post url payload None) net
     = [[("method", VStr "POST"); ("url", VStr url); ("data", payload)]]
  /\ wire (put url payload None) net
     = [[("method", VStr "PUT"); ("url", VStr url); ("data", payload)]]
  /\ wire (del url payload None) net
     = [[("method", VStr "DELETE"); ("url", VStr url); ("params", payload)]]
  /\ forall config : option object,
     exists g p u d : object,
       wire (get url payload config) net = [g]
       /\ wire (post url payload config) net = [p]
       /\ wire (put url payload config) net = [u]
       /\ wire (del url payload config) net = [d]
       /\ without ["method"] g = without ["method"] d
       /\ without ["method"] p = without ["method"] u
       /\ without ["method"; "params"; "data"] g
          = without ["method"; "params"; "data"] p
       /\ (config_has_key "data" config = false ->
           has_key "data" g = false /\ has_key "data" d = false)
       /\ (config_has_key "params" config = false ->
           has_key "params" p = false /\ has_key "params" u = false).
Proof.
  unfold get, post, put, del. rewrite !wire_request.
  repeat (split; [reflexivity|]).
  intro config. do 4 eexists.
  repeat (split; [apply wire_request|]).
  repeat split.
  - now apply without_spread.
  - now apply without_spread.
  - now apply without_spread.
  - rewrite has_key_spread. now rewrite H.
  - rewrite has_key_spread. now rewrite H.
  - rewrite has_key_spread. now rewrite H.
  - rewrite has_key_spread. now rewrite H.
Qed.

Lemma C6_verbs_method_and_slot_witness :
  exists d : object,
    wire (del "/accounts/7" (VObj [("force", VBool true)])
            (Some [("timeout", VNum 1000)])) (Axios.Fulfilled response_ok) = [d]
    /\ has_key "data" d = false.
Proof.
  destruct (proj2 (proj2 (proj2 (proj2
    (C6_verbs_method_and_slot "/accounts/7" (VObj [("force", VBool true)])
       (Axios.Fulfilled response_ok)))))
    (Some [("timeout", VNum 1000)]))
    as (g & p & u & d & _ & _ & _ & Hd & _ & _ & _ & Hdata & _).
  exists d. split; [exact Hd|]. exact (proj2 (Hdata eq_refl)).
Defined.

(** ** C7: the timeout of article generation *)

Lemma invoke_keeps_client (c : facade_call) (net : Axios.transport_result) (w : world) :
  client (fst (invoke c net w)) = client w.
Proof.
  destruct c; cbn [invoke]; autounfold with facades; apply request_keeps_client.
Qed.

(** C7: the generation call goes out with [timeout: 300000], which is the
    timeout in force for it whatever the client's default; the client is
    built with 30000 and no call changes it; and every other facade
    operation sends a descriptor without a [timeout], so the client's
    default is in force for it, also right after a generation call. *)
Theorem C7_generate_timeout_is_local (data : value) (net : Axios.transport_result) :
  (exists cfg,
      wire (geoArticleApi.generate data) net = [cfg]
      /\ obj_get "method" cfg = VStr "POST"
      /\ obj_get "url" cfg = VStr "/geo/generate"
      /\ obj_get "data" cfg = data
      /\ forall d : Axios.Defaults, Axios.effective_timeout d cfg = VNum 300000)
  /\ (forall env_base, Axios.timeout (instance env_base) = 30000)
  /\ (forall (c : facade_call) (net' : Axios.transport_result) (w : world),
        client (fst (invoke c net' w)) = client w)
  /\ (forall (c : facade_call) (net' : Axios.transport_result),
        is_generate c = false ->
        exists cfg',
          wire (invoke c) net' = [cfg']
          /\ has_key "timeout" cfg' = false
          /\ forall w : world,
             Axios.effective_timeout
               (client (fst (geoArticleApi.generate data net w))) cfg'
             = VNum (Axios.timeout (client w))).
Proof.
  split; [|split; [reflexivity|split; [apply invoke_keeps_client|]]].
  - eexists. unfold geoArticleApi.generate, post.
    split; [apply wire_request|]. repeat split.
  - intros c net' Hc.
    assert (Hk : forall w, client (fst (geoArticleApi.generate data net w)) = client w).
    { intro w. unfold geoArticleApi.generate, post. apply request_keeps_client. }
    destruct c; try discriminate Hc; cbn [invoke]; eexists;
      (split; [autounfold with facades; apply wire_request|]);
      (split; [reflexivity|]); intro w; rewrite Hk; reflexivity.
Qed.

Lemma C7_generate_timeout_is_local_witness :
  is_generate (Account_delete 7) = false
  /\ exists cfg',
       wire (invoke (Account_delete 7)) (Axios.Fulfilled response_ok) = [cfg']
       /\ has_key "timeout" cfg' = false.
Proof.
  split; [reflexivity|].
  destruct (proj2 (proj2 (proj2
    (C7_generate_timeout_is_local
       (VObj [("keyword_id", VNum 5); ("platform", VStr "zhihu")])
       (Axios.Fulfilled response_ok))))
    (Account_delete 7) (Axios.Fulfilled response_ok) eq_refl)
    as (cfg' & Hw & Hk & _).
  exists cfg'. split; assumption.
Defined.

(** ** C8: the day window of the trend reads *)

(** C8, as stated, fails: leaving [days] out and passing the default give
    the same call, hence the same request on the wire. *)
Lemma C8_omitted_days_same_request :
  indexCheckApi.getTrend 5 VUndef = indexCheckApi.getTrend 5 (VNum 7)
  /\ reportsApi.getTrends VUndef = reportsApi.getTrends (VNum 30)
  /\ ~ (wire (indexCheckApi.getTrend 5 VUndef) (Axios.Fulfilled response_ok)
        <> wire (indexCheckApi.getTrend 5 (VNum 7)) (Axios.Fulfilled response_ok))
  /\ ~ (wire (reportsApi.getTrends VUndef) (Axios.Fulfilled response_ok)
        <> wire (reportsApi.getTrends (VNum 30)) (Axios.Fulfilled response_ok)).
Proof.
  split; [reflexivity|]. split; [reflexivity|].
  split; intro H; apply H; reflexivity.
Qed.

(** C8, amended: the two trend reads always send a [days] parameter; when
    the argument is left out (or is [undefined]) the facade's default, 7 or
    30, is sent, so the request is the one an explicit default gives and the
    two cannot be told apart on the wire; any other argument is sent as it
    is. *)
Theorem C8_days_default_is_sent (keywordId : Z) (net : Axios.transport_result) :
  wire (indexCheckApi.getTrend keywordId VUndef) net
  = [[("method", VStr "GET");
      ("url", VStr ("/index-check/trend/" ++ num_to_string keywordId)%string);
      ("params", VObj [("days", VNum 7)])]]
  /\ wire (indexCheckApi.getTrend keywordId VUndef) net
     = wire (indexCheckApi.getTrend keywordId (VNum 7)) net
  /\ wire (reportsApi.getTrends VUndef) net
     = [[("method", VStr "GET"); ("url", VStr "/reports/trends");
         ("params", VObj [("days", VNum 30)])]]
  /\ wire (reportsApi.getTrends VUndef) net = wire (reportsApi.getTrends (VNum 30)) net
  /\ forall days : value,
       days <> VUndef ->
       wire (indexCheckApi.getTrend keywordId days) net
       = [[("method", VStr "GET");
           ("url", VStr ("/index-check/trend/" ++ num_to_string keywordId)%string);
           ("params", VObj [("days", days)])]]
       /\ wire (reportsApi.getTrends days) net
          = [[("method", VStr "GET"); ("url", VStr "/reports/trends");
              ("params", VObj [("days", days)])]].
Proof.
  unfold indexCheckApi.getTrend, reportsApi.getTrends, get.
  rewrite !wire_request.
  repeat (split; [reflexivity|]).
  intros days Hd. rewrite !wire_request.
  destruct days; try contradiction; split; reflexivity.
Qed.

Lemma C8_days_default_is_sent_witness :
  VNum 14 <> VUndef
  /\ wire (reportsApi.getTrends (VNum 14)) (Axios.Fulfilled response_ok)
     = [[("method", VStr "GET"); ("url", VStr "/reports/trends");
         ("params", VObj [("days", VNum 14)])]].
Proof.
  assert (H : VNum 14 <> VUndef) by discriminate.
  split; [exact H|].
  exact (proj2 (proj2 (proj2 (proj2 (proj2
    (C8_days_default_is_sent 5 (Axios.Fulfilled response_ok))))) (VNum 14) H)).
Defined.

(** ** C9: list normalisation by the callers *)

(** [loadArticles] has the three cases: a list as it is, a list under
    [data], and the empty list for everything else. *)
Lemma loadArticles_three_cases (res old : value) :
  (Array_isArray res = true ->
   Articles.loadArticles (Axios.Resolved res) old = res)
  /\ (Array_isArray res = false ->
      Array_isArray (opt_chain res ["data"]) = true ->
      Articles.loadArticles (Axios.Resolved res) old = opt_chain res ["data"])
  /\ (Array_isArray res = false ->
      Array_isArray (opt_chain res ["data"]) = false ->
      Articles.loadArticles (Axios.Resolved res) old = VArr []).
Proof.
  unfold Articles.loadArticles, Articles.loadArticles_resolved.
  split; [now intros ->|].
  assert (E : Array_isArray res = false ->
              forall b, Array_isArray (opt_chain res ["data"]) = b ->
              match
                (c <-! (if truthy res
                        then d <-! get_prop res "data"; Normal (Array_isArray d)
                        else Normal false);
                 if c then get_prop res "data" else Normal (VArr []))
              with
              | Normal v => v
              | Throw _ => old
              end = if b then opt_chain res ["data"] else VArr []).
  { intros _ b Hb. cbn [opt_chain] in Hb.
    destruct (truthy res) eqn:T.
    - rewrite (truthy_defined res T) in Hb.
      rewrite (get_prop_defined res "data" (truthy_defined res T)).
      cbn [cbind opt_chain]. rewrite Hb, (truthy_defined res T).
      now destruct b.
    - cbn [cbind].
      destruct (is_nullish res); cbn in Hb; subst b; [reflexivity|].
      destruct (Array_isArray (prop res "data")) eqn:A; [|reflexivity].
      destruct res; cbn in T, A; discriminate. }
  split; intros Hr Hd; rewrite Hr; exact (E Hr _ Hd).
Qed.

(** The shorthand [Array.isArray(res) ? res : (res?.data || [])] of the
    other callers agrees with the three cases as long as [res?.data] is a
    list or falsy, and otherwise hands on [res?.data], whatever it is. *)
Lemma initChart_data_cases (res : value) :
  (Array_isArray res = true -> Monitor.initChart_data res = res)
  /\ (Array_isArray res = false ->
      Array_isArray (opt_chain res ["data"]) = true ->
      Monitor.initChart_data res = opt_chain res ["data"])
  /\ (Array_isArray res = false ->
      truthy (opt_chain res ["data"]) = false ->
      Monitor.initChart_data res = VArr [])
  /\ (Array_isArray res = false ->
      truthy (opt_chain res ["data"]) = true ->
      Monitor.initChart_data res = opt_chain res ["data"]).
Proof.
  unfold Monitor.initChart_data, js_or.
  repeat split.
  - now intros ->.
  - intros -> H. now destruct (opt_chain res ["data"]).
  - now intros -> ->.
  - now intros -> ->.
Qed.

(** The same expression stands at the four other call sites. *)
Lemma shorthand_call_sites (res old : value) :
  Articles.loadProjects (Axios.Resolved res) old = Monitor.initChart_data res
  /\ Articles.onProjectChange (Axios.Resolved res) = Monitor.initChart_data res
  /\ Monitor.onProjectChange (Axios.Resolved res) = Monitor.initChart_data res
  /\ Monitor.onMounted_projects res = Monitor.initChart_data res.
Proof. repeat split. Qed.

(** C9 at a body whose [data] field holds a page object: [initChart] takes
    the page object for its list, which is no sequence, and the rendering
    that follows throws; [loadArticles] falls back to the empty list on the
    same body. *)
Theorem C9_initChart_keeps_non_sequence :
  Monitor.initChart_data body_paged
  = VObj [("items", VArr [VObj [("date", VStr "2026-02-01");
                                ("keyword_found_count", VNum 3)]]);
          ("total", VNum 1)]
  /\ Array_isArray (Monitor.initChart_data body_paged) = false
  /\ Monitor.initChart_data body_paged <> VArr []
  /\ Monitor.initChart_series body_paged = Throw TypeError
  /\ Articles.loadArticles (Axios.Resolved body_paged) (VArr [VStr "old"]) = VArr [].
Proof. repeat split. discriminate. Qed.

(** ** C10: the log list stays short *)

Lemma onmessage_cases (parsed : completion value) (logs : list value) :
  Monitor.onmessage parsed logs = logs
  \/ exists e,
       Monitor.onmessage parsed logs =
         if (50 <? length (logs ++ [e]))%nat then tl (logs ++ [e]) else logs ++ [e].
Proof.
  unfold Monitor.onmessage, Monitor.onmessage_try.
  destruct parsed as [data|e]; [|now left]. cbn [cbind].
  destruct (truthy data) eqn:Hd; [|now left].
  pose proof (truthy_defined data Hd) as Hn.
  rewrite !(get_prop_defined data _ Hn). cbn [cbind].
  destruct (truthy (prop data "message")); [|now left].
  right. eexists. reflexivity.
Qed.

Lemma onmessage_bounded (parsed : completion value) (logs : list value) :
  (length logs <= 50)%nat -> (length (Monitor.onmessage parsed logs) <= 50)%nat.
Proof.
  intro H. destruct (onmessage_cases parsed logs) as [->|(e & ->)]; [exact H|].
  destruct (50 <? length (logs ++ [e]))%nat eqn:E.
  - destruct logs as [|x logs]; cbn in *.
    + lia.
    + rewrite length_app in *. cbn in *. lia.
  - apply Nat.ltb_ge in E. exact E.
Qed.

Lemma fold_onmessage_bounded (events : list (completion value)) (logs : list value) :
  (length logs <= 50)%nat ->
  (length (fold_left (fun l ev => Monitor.onmessage ev l) events logs) <= 50)%nat.
Proof.
  revert logs. induction events as [|ev events IH]; intros logs H; cbn.
  - exact H.
  - apply IH. now apply onmessage_bounded.
Qed.

(** C10: starting from the empty list, after any run of WebSocket messages
    the log list has at most 50 entries; one message keeps a list of at most
    50 entries at most 50 long; and a log event that arrives when 50 entries
    are held drops the oldest entry and puts the new one last. *)
Theorem C10_logs_at_most_50 :
  (forall events : list (completion value),
      (length (Monitor.run_events events) <= 50)%nat)
  /\ (forall (parsed : completion value) (logs : list value),
        (length logs <= 50)%nat ->
        (length (Monitor.onmessage parsed logs) <= 50)%nat)
  /\ (forall (data : value) (logs : list value),
        truthy data = true ->
        truthy (prop data "message") = true ->
        length logs = 50%nat ->
        Monitor.onmessage (Normal data) logs
        = tl logs ++ [VObj [("time", js_or (prop data "time") (VStr EmptyString));
                            ("level", js_or (prop data "level") (VStr "INFO"));
                            ("message", prop data "message")]]).
Proof.
  split; [|split].
  - intro events. unfold Monitor.run_events.
    apply fold_onmessage_bounded. cbn. lia.
  - apply onmessage_bounded.
  - intros data logs Hd Hm Hl.
    unfold Monitor.onmessage, Monitor.onmessage_try. cbn [cbind].
    rewrite Hd.
    pose proof (truthy_defined data Hd) as Hn.
    rewrite !(get_prop_defined data _ Hn). cbn [cbind]. rewrite Hm.
    unfold Monitor.push, Monitor.shift.
    rewrite length_app, Hl. cbn [length Nat.add Nat.ltb Nat.leb].
    destruct logs as [|x logs]; [discriminate Hl|reflexivity].
Qed.

Lemma C10_logs_at_most_50_witness :
  length (Monitor.run_events (repeat (Normal log_event) 60)) = 50%nat
  /\ (length (Monitor.run_events (repeat (Normal log_event) 60)) <= 50)%nat
  /\ Monitor.onmessage (Normal log_event) (repeat VNull 50)
     = repeat VNull 49 ++ [log_event].
Proof.
  split; [reflexivity|]. split.
  - exact (proj1 C10_logs_at_most_50 (repeat (Normal log_event) 60)).
  - exact (proj2 (proj2 C10_logs_at_most_50) log_event (repeat VNull 50)
             eq_refl eq_refl eq_refl).
Defined.

(** * Further properties of the code *)

(** ** Every facade operation is one [request] *)

Lemma invoke_is_request (c : facade_call) : exists cfg, invoke c = request cfg.
Proof. destruct c; cbn [invoke]; autounfold with facades; eexists; reflexivity. Qed.

(** Every facade operation sends one descriptor: its method is one of the
    four verbs, its url starts with a slash, a GET or DELETE has a [params]
    slot and no [data], a POST or PUT has a [data] slot and no [params]. *)
Theorem facade_requests_well_formed (c : facade_call) (net : Axios.transport_result) :
  exists (cfg : object) (m u : string),
    wire (invoke c) net = [cfg]
    /\ method_of cfg = Some m
    /\ url_of cfg = Some u
    /\ In m ["GET"; "POST"; "PUT"; "DELETE"]
    /\ String.prefix "/" u = true
    /\ (m = "GET" \/ m = "DELETE" ->
        has_key "params" cfg = true /\ has_key "data" cfg = false)
    /\ (m = "POST" \/ m = "PUT" ->
        has_key "data" cfg = true /\ has_key "params" cfg = false).
Proof.
  destruct c; cbn [invoke]; autounfold with facades; rewrite wire_request;
    do 3 eexists;
    (split; [reflexivity|]); (split; [reflexivity|]); (split; [reflexivity|]);
    (split; [cbn; tauto|]); (split; [reflexivity|]);
    split; intros [H|H]; try discriminate H; split; reflexivity.
Qed.

(** ** Ids in urls *)









(** ** Calls one after the other *)

Lemma request_notifications (cfg : object) (net : Axios.transport_result) (w : world) :
  length (notifications (trace (fst (request cfg net w))))
  = (length (notifications (trace w)) + if failed_defined net then 1 else 0)%nat.
Proof.
  destruct net as [response|error]; cbn [failed_defined].
  - cbn. rewrite notifications_app, length_app. reflexivity.
  - destruct (is_nullish error) eqn:Hn; cbn [negb].
    + destruct error; try discriminate Hn; cbn;
        rewrite <- app_assoc, notifications_app, length_app; reflexivity.
    + rewrite (request_failed_run error Hn cfg w). cbn [fst trace].
      rewrite notifications_app, length_app. f_equal.
      unfold onRejected_effects.
      now destruct (strict_eq_num (probe_status error) 500).
Qed.

Lemma request_extends_trace (cfg : object) (net : Axios.transport_result) (w : world) :
  exists added, trace (fst (request cfg net w)) = trace w ++ added
                /\ length (sent added) = 1%nat.
Proof.
  destruct (request_trace cfg net w) as (rest & Ht & Hs & _).
  exists (Send cfg :: rest). split; [exact Ht|]. cbn. now rewrite Hs.
Qed.

(** Over any run of facade calls the history only grows: what was in the
    trace stays, each call sends exactly one request whatever its end (no
    retry, no call dropped), one notification is shown per failed call with
    a readable error and none for a success, and the client's defaults are
    those it started with. *)
Theorem run_calls_counts (calls : list (facade_call * Axios.transport_result))
  (w : world) :
  (exists added, trace (run_calls calls w) = trace w ++ added)
  /\ length (sent (trace (run_calls calls w)))
     = (length (sent (trace w)) + length calls)%nat
  /\ length (notifications (trace (run_calls calls w)))
     = (length (notifications (trace w))
        + length (filter (fun cn => failed_defined (snd cn)) calls))%nat
  /\ client (run_calls calls w) = client w.
Proof.
  revert w. induction calls as [|[c net] calls IH]; intro w; cbn [run_calls].
  - repeat split; cbn; try lia. exists []. now rewrite app_nil_r.
  - destruct (IH (fst (invoke c net w))) as ((added & Ha) & Hs & Hn & Hc).
    destruct (invoke_is_request c) as (cfg & E). rewrite E in *.
    destruct (request_extends_trace cfg net w) as (first & Hf & Hf1).
    repeat split.
    + exists (first ++ added). now rewrite Ha, Hf, app_assoc.
    + rewrite Hs, Hf, sent_app, length_app, Hf1. cbn [length]. lia.
    + rewrite Hn, request_notifications. cbn [filter snd].
      destruct (failed_defined net); cbn [length]; lia.
    + now rewrite Hc, request_keeps_client.
Qed.

(** ** What the third argument of a verb helper can do *)

Lemma obj_get_obj_set (k k' : string) (v : value) (o : object) :
  obj_get k (obj_set k' v o) = if String.eqb k k' then v else obj_get k o.
Proof.
  induction o as [|[k0 v0] o IH]; cbn.
  - reflexivity.
  - destruct (String.eqb k' k0) eqn:E; cbn.
    + apply String.eqb_eq in E. subst k0. now destruct (String.eqb k k').
    + rewrite IH. destruct (String.eqb k k0) eqn:E0; [|reflexivity].
      apply String.eqb_eq in E0. subst k0.
      now rewrite String.eqb_sym, E.
Qed.

Lemma obj_get_assign_absent (k : string) (src base : object) :
  has_key k src = false -> obj_get k (assign base src) = obj_get k base.
Proof.
  unfold assign. revert base.
  induction src as [|[k0 v0] src IH]; intros base H; cbn in *.
  - reflexivity.
  - apply orb_false_iff in H. destruct H as [H0 H1].
    rewrite (IH _ H1), obj_get_obj_set. now rewrite H0.
Qed.

Lemma obj_get_assign_present (k : string) (src base : object) :
  keys_distinct src = true -> has_key k src = true ->
  obj_get k (assign base src) = obj_get k src.
Proof.
  revert base.
  induction src as [|[k0 v0] src IH]; intros base Hd Hk; cbn in *.
  - discriminate.
  - apply andb_true_iff in Hd. destruct Hd as [Hfresh Hd].
    change (fold_left (fun acc kv => obj_set (fst kv) (snd kv) acc) src
              (obj_set k0 v0 base))
      with (assign (obj_set k0 v0 base) src).
    destruct (String.eqb k k0) eqn:E.
    + apply String.eqb_eq in E. subst k0.
      apply negb_true_iff in Hfresh.
      rewrite (obj_get_assign_absent _ _ _ Hfresh), obj_get_obj_set.
      now rewrite String.eqb_refl.
    + cbn in Hk. now apply IH.
Qed.

(** The config given as third argument is spread last, so whatever it names
    wins: for a config without repeated keys, every key it has reaches the
    wire with the config's value, also [method], [url], [params] and [data],
    and every key it does not have keeps the value the helper gave it.  The
    four helpers are alike in this. *)
Theorem config_wins (url : string) (payload : value) (src : object) (k : string)
  (net : Axios.transport_result) :
  keys_distinct src = true ->
  exists g p u d : object,
    wire (get url payload (Some src)) net = [g]
    /\ wire (post url payload (Some src)) net = [p]
    /\ wire (put url payload (Some src)) net = [u]
    /\ wire (del url payload (Some src)) net = [d]
    /\ (has_key k src = true ->
        obj_get k g = obj_get k src /\ obj_get k p = obj_get k src
        /\ obj_get k u = obj_get k src /\ obj_get k d = obj_get k src)
    /\ (has_key k src = false ->
        obj_get k g = obj_get k [("method", VStr "GET"); ("url", VStr url);
                                 ("params", payload)]
        /\ obj_get k p = obj_get k [("method", VStr "POST"); ("url", VStr url);
                                    ("data", payload)]
        /\ obj_get k u = obj_get k [("method", VStr "PUT"); ("url", VStr url);
                                    ("data", payload)]
        /\ obj_get k d = obj_get k [("method", VStr "DELETE"); ("url", VStr url);
                                    ("params", payload)]).
Proof.
  intro Hd. unfold get, post, put, del. do 4 eexists.
  repeat (split; [apply wire_request|]).
  cbn [spread]. split; intro Hk.
  - now rewrite !(obj_get_assign_present k src _ Hd Hk).
  - now rewrite !(obj_get_assign_absent k src _ Hk).
Qed.

Lemma config_wins_witness :
  exists d : object,
    wire (del "/accounts/7" VUndef
            (Some [("data", VObj [("reason", VStr "spam")]); ("method", VStr "POST")]))
         (Axios.Fulfilled response_ok) = [d]
    /\ obj_get "data" d = VObj [("reason", VStr "spam")].
Proof.
  destruct (config_wins "/accounts/7" VUndef
              [("data", VObj [("reason", VStr "spam")]); ("method", VStr "POST")]
              "data" (Axios.Fulfilled response_ok) eq_refl)
    as (g & p & u & d & _ & _ & _ & Hd & Hin & _).
  exists d. split; [exact Hd|]. exact (proj2 (proj2 (proj2 (Hin eq_refl)))).
Defined.

(** ** The error handler at its edges *)

(** The handler throws exactly when the rejection value is [undefined] or
    [null]: then only the first log line is written, no notification is
    shown, and the call ends with the [TypeError] in place of the value it
    was rejected with. *)
Theorem onRejected_throws_iff_nullish (error : value) (w : world) :
  (snd (onRejected error w) = Throw TypeError <-> is_nullish error = true)
  /\ (is_nullish error = true ->
      trace (fst (onRejected error w))
      = trace w ++ [ConsoleError label_response_error error]
      /\ forall config,
         snd (request config (Axios.Failed error) w) = Throw TypeError
         /\ notifications (trace (fst (request config (Axios.Failed error) w)))
            = notifications (trace w)).
Proof.
  split; [split|].
  - intro H. destruct (is_nullish error) eqn:Hn; [reflexivity|].
    rewrite (onRejected_run error Hn w) in H. discriminate H.
  - intro Hn. destruct error; try discriminate Hn; reflexivity.
  - intro Hn. destruct error; try discriminate Hn; (split; [reflexivity|]);
      intro config; (split; [reflexivity|]); cbn;
      rewrite <- app_assoc, notifications_app; cbn; now rewrite app_nil_r.
Qed.

Lemma onRejected_throws_iff_nullish_witness :
  snd (request [("method", VStr "GET"); ("url", VStr "/accounts")]
         (Axios.Failed VNull) world0) = Throw TypeError.
Proof.
  exact (proj1 (proj2 (proj2 (onRejected_throws_iff_nullish VNull world0) eq_refl)
                  [("method", VStr "GET"); ("url", VStr "/accounts")])).
Defined.



(** ** Articles.vue: the article list *)

Lemma loadArticles_keeps_list_aux (outcome : Axios.settled) (old : value) :
  Array_isArray old = true ->
  Array_isArray (Articles.loadArticles outcome old) = true.
Proof.
  intro Hold.
  destruct outcome as [res|reason]; [|exact Hold].
  destruct (loadArticles_three_cases res old) as (H1 & H2 & H3).
  destruct (Array_isArray res) eqn:Hr.
  - now rewrite (H1 eq_refl).
  - destruct (Array_isArray (opt_chain res ["data"])) eqn:Hd.
    + now rewrite (H2 eq_refl eq_refl).
    + now rewrite (H3 eq_refl eq_refl).
Qed.

(** [articles] stays a list: whatever the call of [loadArticles] ends with,
    a list before is a list after, and a rejected call leaves it as it
    was. *)
Theorem loadArticles_keeps_list (outcome : Axios.settled) (old : value) :
  Array_isArray old = true ->
  Array_isArray (Articles.loadArticles outcome old) = true
  /\ (forall reason, Articles.loadArticles (Axios.Rejected reason) old = old).
Proof.
  intro Hold. split; [now apply loadArticles_keeps_list_aux|reflexivity].
Qed.

Lemma loadArticles_keeps_list_witness :
  Array_isArray (VArr [VStr "old"]) = true
  /\ Array_isArray (Articles.loadArticles (Axios.Resolved body_paged) (VArr [VStr "old"]))
     = true.
Proof.
  split; [reflexivity|].
  exact (proj1 (loadArticles_keeps_list (Axios.Resolved body_paged)
                  (VArr [VStr "old"]) eq_refl)).
Defined.

(** ** Articles.vue: rendering tools *)

Import ArticleTools.

(** The score classes cut the scores at 60 and 80, both bounds going to the
    better class, and a higher score never gets a worse class. *)
Theorem getScoreClass_thresholds (s t : Z) :
  (getScoreClass s = "text-success" <-> 80 <= s)
  /\ (getScoreClass s = "text-warning" <-> 60 <= s < 80)
  /\ (getScoreClass s = "text-danger" <-> s < 60)
  /\ (s <= t -> class_rank (getScoreClass s) <= class_rank (getScoreClass t)).
Proof.
  unfold getScoreClass.
  destruct (Z.leb_spec 80 s), (Z.leb_spec 60 s),
           (Z.leb_spec 80 t), (Z.leb_spec 60 t); cbn;
    repeat split; intros; try lia; try discriminate; try reflexivity.
Qed.

Lemma getScoreClass_thresholds_witness :
  getScoreClass 80 = "text-success"
  /\ class_rank (getScoreClass 59) <= class_rank (getScoreClass 60).
Proof.
  split.
  - apply (proj1 (getScoreClass_thresholds 80 80)). lia.
  - apply (proj2 (proj2 (proj2 (getScoreClass_thresholds 59 60)))). lia.
Defined.

Lemma inherited_name_cases (s : string) :
  existsb (String.eqb s) object_prototype_names = true ->
  In s object_prototype_names.
Proof.
  intro H. apply existsb_exists in H. destruct H as (x & Hx & E).
  apply String.eqb_eq in E. now subst x.
Qed.

Ltac split_eqb s k :=
  let E := fresh "E" in
  destruct (String.eqb s k) eqn:E;
  [apply String.eqb_eq in E; subst s|].

(** A status that is not the name of a member every object inherits gets one
    of the tag types the tag component knows; a status that is such a name
    ("constructor", "toString", ...) gets the inherited member itself, which
    is no tag type and no text. *)
Theorem status_tag_types (s : string) :
  (existsb (String.eqb s) object_prototype_names = false ->
   (exists t, getPublishStatusType s = Own t
              /\ In t ["info"; "warning"; "primary"; "success"; "danger"])
   /\ (exists t, getIndexStatusType s = Own t
                 /\ In t ["info"; "success"; "danger"]))
  /\ (existsb (String.eqb s) object_prototype_names = true ->
      getPublishStatusType s = Inherited s
      /\ getPublishStatusText s = Inherited s
      /\ getIndexStatusType s = Inherited s
      /\ getIndexStatusText s = Inherited s
      /\ getPlatformName s = Inherited s).
Proof.
  split.
  - intro Hp. split.
    + unfold getPublishStatusType, literal_get, publish_status_types. cbn [own_get].
      split_eqb s "draft"; [eexists; split; [reflexivity|cbn; tauto]|].
      split_eqb s "scheduled"; [eexists; split; [reflexivity|cbn; tauto]|].
      split_eqb s "publishing"; [eexists; split; [reflexivity|cbn; tauto]|].
      split_eqb s "published"; [eexists; split; [reflexivity|cbn; tauto]|].
      split_eqb s "failed"; [eexists; split; [reflexivity|cbn; tauto]|].
      rewrite Hp. eexists; split; [reflexivity|cbn; tauto].
    + unfold getIndexStatusType, literal_get, index_status_types. cbn [own_get].
      split_eqb s "uncheck"; [eexists; split; [reflexivity|cbn; tauto]|].
      split_eqb s "indexed"; [eexists; split; [reflexivity|cbn; tauto]|].
      split_eqb s "not_indexed"; [eexists; split; [reflexivity|cbn; tauto]|].
      rewrite Hp. eexists; split; [reflexivity|cbn; tauto].
  - intro Hp. apply inherited_name_cases in Hp. cbn in Hp.
    repeat (destruct Hp as [<-|Hp]; [repeat split|]); contradiction.
Qed.

Lemma status_tag_types_witness :
  (exists t, getPublishStatusType "published" = Own t
             /\ In t ["info"; "warning"; "primary"; "success"; "danger"])
  /\ getPublishStatusType "constructor" = Inherited "constructor".
Proof.
  split.
  - exact (proj1 (proj1 (status_tag_types "published") eq_refl)).
  - exact (proj1 (proj2 (status_tag_types "constructor") eq_refl)).
Defined.

Ltac unknown_key s H :=
  repeat match goal with
         | |- context [String.eqb s ?k] =>
             let E := fresh "E" in
             destruct (String.eqb s k) eqn:E;
             [apply String.eqb_eq in E; exfalso; apply H; rewrite E; cbn; tauto|]
         end.

(** What an unknown value falls back to, for a value that is not the name of
    an inherited member: an unknown publish status shows as an "info" tag
    with the raw status as its text, an unknown index status as an "info"
    tag reading "未检测", an unknown platform under its raw name; and each of
    the five known publish statuses has a text of its own. *)
Theorem unknown_status_fallbacks (s : string) :
  existsb (String.eqb s) object_prototype_names = false ->
  (~ In s ["draft"; "scheduled"; "publishing"; "published"; "failed"] ->
   getPublishStatusType s = Own "info" /\ getPublishStatusText s = Own s)
  /\ (~ In s ["uncheck"; "indexed"; "not_indexed"] ->
      getIndexStatusType s = Own "info" /\ getIndexStatusText s = Own "未检测")
  /\ (~ In s ["zhihu"; "baijiahao"; "sohu"; "toutiao"] -> getPlatformName s = Own s)
  /\ (In s ["draft"; "scheduled"; "publishing"; "published"; "failed"] ->
      exists text, getPublishStatusText s = Own text /\ text <> s).
Proof.
  intro Hp. repeat split.
  - unfold getPublishStatusType, literal_get, publish_status_types. cbn [own_get].
    unknown_key s H. now rewrite Hp.
  - unfold getPublishStatusText, literal_get, publish_status_texts. cbn [own_get].
    unknown_key s H. now rewrite Hp.
  - unfold getIndexStatusType, literal_get, index_status_types. cbn [own_get].
    unknown_key s H. now rewrite Hp.
  - unfold getIndexStatusText, literal_get, index_status_texts. cbn [own_get].
    unknown_key s H. now rewrite Hp.
  - intro H. unfold getPlatformName, literal_get, platform_names. cbn [own_get].
    unknown_key s H. now rewrite Hp.
  - intro H. cbn in H.
    repeat (destruct H as [<-|H];
            [eexists; split; [reflexivity|discriminate]|]).
    contradiction.
Qed.

Lemma unknown_status_fallbacks_witness :
  existsb (String.eqb "generating") object_prototype_names = false
  /\ getPublishStatusType "generating" = Own "info"
  /\ getPublishStatusText "generating" = Own "generating".
Proof.
  split; [reflexivity|].
  apply (proj1 (unknown_status_fallbacks "generating" eq_refl)).
  cbn. intros [H|[H|[H|[H|[H|[]]]]]]; discriminate H.
Defined.

(** ** Articles.vue: what [generateArticle] asks for *)

Lemma js_or_truthy (a d : value) : truthy d = true -> truthy (js_or a d) = true.
Proof. intro H. unfold js_or. now destruct (truthy a) eqn:E. Qed.

Lemma find_items_defined (pid : option Z) (items : list value) :
  forallb (fun p => negb (is_nullish p)) items = true ->
  exists found,
    find_items (fun p => id <-! get_prop p "id"; Normal (strict_eq_id id pid)) items
    = Normal found.
Proof.
  induction items as [|p items IH]; cbn; intro H.
  - now eexists.
  - apply andb_true_iff in H. destruct H as [Hp H].
    apply negb_true_iff in Hp. rewrite (get_prop_defined p "id" Hp). cbn.
    destruct (strict_eq_id (prop p "id") pid); [now eexists|now apply IH].
Qed.

(** [generateArticle] only asks for an article when a keyword with a
    non-zero id is chosen.  What it then passes on has exactly the keyword
    id, a company name that is never empty and the platform; the publish
    time of the form is not part of it; and it goes out as POST
    /geo/generate with the long timeout.  With no keyword (or keyword 0)
    nothing is sent; when [projects] does not hold a list the lookup of the
    project throws before anything is sent; with a list of objects it always
    gets as far as the request. *)
Theorem generateArticle_request_shape (projects : value) (form : GenerateForm) :
  (forall data,
      generateArticle_request projects form = Normal (Some data) ->
      exists z company,
        keywordId form = Some z /\ z <> 0
        /\ data = VObj [("keyword_id", VNum z); ("company_name", company);
                        ("platform", VStr (platform form))]
        /\ truthy company = true
        /\ forall net,
           wire (geoArticleApi.generate data) net
           = [[("method", VStr "POST"); ("url", VStr "/geo/generate");
               ("data", data); ("timeout", VNum 300000)]])
  /\ (keywordId form = None \/ keywordId form = Some 0 ->
      generateArticle_request projects form = Normal None)
  /\ (forall z, keywordId form = Some z -> z <> 0 ->
                Array_isArray projects = false ->
                generateArticle_request projects form = Throw TypeError)
  /\ (forall z items,
        keywordId form = Some z -> z <> 0 -> projects = VArr items ->
        forallb (fun p => negb (is_nullish p)) items = true ->
        exists data, generateArticle_request projects form = Normal (Some data)).
Proof.
  unfold generateArticle_request.
  split; [|split; [|split]].
  - intros data H. destruct (keywordId form) as [z|]; [|discriminate H].
    cbn in H. destruct (z =? 0) eqn:Ez; [discriminate H|]. cbn in H.
    destruct (array_find _ projects) as [project|e]; [|discriminate H].
    cbn in H. injection H as <-.
    exists z. eexists. split; [reflexivity|]. split; [now apply Z.eqb_neq|].
    split; [reflexivity|]. split; [now apply js_or_truthy|].
    intro net. unfold geoArticleApi.generate, post. now rewrite wire_request.
  - intros [-> | ->]; reflexivity.
  - intros z -> Hz Hp. cbn. apply Z.eqb_neq in Hz. rewrite Hz. cbn.
    destruct projects; try discriminate Hp; reflexivity.
  - intros z items -> Hz -> Hi. cbn. apply Z.eqb_neq in Hz. rewrite Hz. cbn.
    destruct (find_items_defined (projectId form) items Hi) as (found & ->).
    cbn. now eexists.
Qed.

Lemma generateArticle_request_shape_witness :
  exists data,
    generateArticle_request
      (VArr [VObj [("id", VNum 1); ("company_name", VStr "Acme")];
             VObj [("id", VNum 2)]])
      {| projectId := Some 2; keywordId := Some 5; platform := "zhihu";
         publishTime := "2026-03-01 08:00:00" |}
    = Normal (Some data).
Proof.
  exact (proj2 (proj2 (proj2 (generateArticle_request_shape
    (VArr [VObj [("id", VNum 1); ("company_name", VStr "Acme")];
           VObj [("id", VNum 2)]])
    {| projectId := Some 2; keywordId := Some 5; platform := "zhihu";
       publishTime := "2026-03-01 08:00:00" |})))
    5 _ eq_refl ltac:(discriminate) eq_refl eq_refl).
Defined.

(** ** Monitor.vue: the statistic cards *)

Import MonitorStats.

Lemma loadStats_truthy (outcome : Axios.settled) (stats : value) :
  truthy stats = true -> truthy (loadStats outcome stats) = true.
Proof.
  intro H. destruct outcome as [res|reason]; cbn; [|exact H].
  unfold get_prop. destruct (is_nullish res); cbn; [exact H|].
  now apply js_or_truthy.
Qed.

Lemma stats_after_truthy (outcomes : list Axios.settled) :
  truthy (stats_after outcomes) = true.
Proof.
  unfold stats_after.
  assert (G : forall stats, truthy stats = true ->
            truthy (fold_left (fun s o => loadStats o s) outcomes stats) = true).
  { induction outcomes as [|o outcomes IH]; intros stats H; cbn; [exact H|].
    apply IH. now apply loadStats_truthy. }
  now apply G.
Qed.

Lemma js_or_zero (a : value) :
  truthy (js_or a (VNum 0)) = true \/ js_or a (VNum 0) = VNum 0.
Proof. unfold js_or. destruct (truthy a) eqn:E; [now left|now right]. Qed.

(** Whatever the overview calls returned or failed with, [stats] never
    becomes [undefined], [null] or any falsy value, so the four cards always
    render, and each shows either a truthy value or the number 0, never an
    empty or missing one. *)
Theorem stat_cards_always_render (outcomes : list Axios.settled) :
  truthy (stats_after outcomes) = true
  /\ exists cards,
       statConfigs (stats_after outcomes) = Normal cards
       /\ length cards = 4%nat
       /\ Forall (fun card => truthy (prop card "value") = true
                              \/ prop card "value" = VNum 0) cards.
Proof.
  pose proof (stats_after_truthy outcomes) as Ht.
  split; [exact Ht|].
  unfold statConfigs.
  rewrite !(get_prop_defined _ _ (truthy_defined _ Ht)). cbn [cbind].
  eexists. split; [reflexivity|]. split; [reflexivity|].
  repeat (apply Forall_cons; [apply js_or_zero|]). apply Forall_nil.
Qed.

(** ** Monitor.vue: the chart *)

Lemma map_items_defined (k : string) (g : value -> value) (items : list value) :
  Monitor.map_items (fun d => c <-! get_prop d k; Normal (g c)) items
  = if forallb (fun d => negb (is_nullish d)) items
    then Normal (map (fun d => g (prop d k)) items)
    else Throw TypeError.
Proof.
  induction items as [|d items IH]; cbn; [reflexivity|].
  unfold get_prop at 1. destruct (is_nullish d); cbn; [reflexivity|].
  rewrite IH. now destruct (forallb _ items).
Qed.

Lemma map_items_prop (k : string) (items : list value) :
  Monitor.map_items (fun d => get_prop d k) items
  = if forallb (fun d => negb (is_nullish d)) items
    then Normal (map (fun d => prop d k) items)
    else Throw TypeError.
Proof.
  induction items as [|d items IH]; cbn; [reflexivity|].
  unfold get_prop at 1. destruct (is_nullish d); cbn; [reflexivity|].
  rewrite IH. now destruct (forallb _ items).
Qed.

(** The two series of the chart: when the list [initChart] settles on has no
    [undefined] or [null] point, the x axis is the [date] of each point and
    the line is its [keyword_found_count], a missing or zero count showing
    as 0, both as long as the list and in its order; one [undefined] or
    [null] point, or anything but a list, makes the rendering throw. *)
Theorem initChart_series_of_list (res : value) :
  match Monitor.initChart_data res with
  | VArr items =>
      Monitor.initChart_series res
      = if forallb (fun d => negb (is_nullish d)) items
        then Normal (map (fun d => prop d "date") items,
                     map (fun d => js_or (prop d "keyword_found_count") (VNum 0)) items)
        else Throw TypeError
  | _ => Monitor.initChart_series res = Throw TypeError
  end.
Proof.
  unfold Monitor.initChart_series.
  destruct (Monitor.initChart_data res) as [| | | | |items|]; try reflexivity.
  cbn [Monitor.array_map].
  rewrite map_items_prop.
  rewrite (map_items_defined "keyword_found_count" (fun c => js_or c (VNum 0))).
  now destruct (forallb _ items).
Qed.

(** ** Monitor.vue: which log lines are kept *)

Lemma onmessage_accepted (parsed : completion value) (logs : list value) :
  Monitor.onmessage parsed logs
  = match accepted_entry parsed with
    | Some e =>
        if (50 <? length (logs ++ [e]))%nat then tl (logs ++ [e]) else logs ++ [e]
    | None => logs
    end.
Proof.
  unfold Monitor.onmessage, Monitor.onmessage_try, accepted_entry.
  destruct parsed as [data|e]; [|reflexivity]. cbn [cbind].
  destruct (truthy data) eqn:Hd; [|reflexivity].
  rewrite !(get_prop_defined data _ (truthy_defined data Hd)). cbn [cbind andb].
  now destruct (truthy (prop data "message")).
Qed.

Lemma lastn_length {A} (n : nat) (l : list A) :
  length (lastn n l) = Nat.min n (length l).
Proof. unfold lastn. rewrite length_skipn. lia. Qed.

Lemma lastn_snoc {A} (m : nat) (l : list A) (e : A) :
  lastn (S m) (l ++ [e]) = lastn m l ++ [e].
Proof.
  unfold lastn. rewrite length_app. cbn [length].
  replace (length l + 1 - S m)%nat with (length l - m)%nat by lia.
  rewrite skipn_app.
  replace (length l - m - length l)%nat with 0%nat by lia.
  reflexivity.
Qed.

Lemma lastn_lastn {A} (m n : nat) (l : list A) :
  (m <= n)%nat -> lastn m (lastn n l) = lastn m l.
Proof.
  intro H. unfold lastn. rewrite length_skipn, skipn_skipn.
  f_equal. lia.
Qed.

Lemma keep_50 (logs : list value) (e : value) :
  (length logs <= 50)%nat ->
  (if (50 <? length (logs ++ [e]))%nat then tl (logs ++ [e]) else logs ++ [e])
  = lastn 50 (logs ++ [e]).
Proof.
  intro H. unfold lastn. rewrite length_app. cbn [length].
  destruct (50 <? length logs + 1)%nat eqn:E.
  - apply Nat.ltb_lt in E.
    replace (length logs + 1 - 50)%nat with 1%nat by lia.
    now destruct (logs ++ [e]).
  - apply Nat.ltb_ge in E.
    now replace (length logs + 1 - 50)%nat with 0%nat by lia.
Qed.

Lemma fold_onmessage_lastn (events : list (completion value)) (seen : list value) :
  fold_left (fun logs ev => Monitor.onmessage ev logs) events (lastn 50 seen)
  = lastn 50 (seen ++ accepted_entries events).
Proof.
  revert seen. induction events as [|ev events IH]; intro seen; cbn.
  - now rewrite app_nil_r.
  - rewrite onmessage_accepted. destruct (accepted_entry ev) as [e|].
    + rewrite keep_50 by (rewrite lastn_length; lia).
      rewrite lastn_snoc, lastn_lastn by lia.
      rewrite <- lastn_snoc, IH, <- app_assoc. reflexivity.
    + apply IH.
Qed.

Lemma run_events_lastn (events : list (completion value)) :
  Monitor.run_events events = lastn 50 (accepted_entries events).
Proof. exact (fold_onmessage_lastn events []). Qed.

Lemma Forall_lastn {A} (P : A -> Prop) (n : nat) (l : list A) :
  Forall P l -> Forall P (lastn n l).
Proof.
  unfold lastn. generalize (length l - n)%nat as k. intros k H. revert k.
  induction H as [|x l Hx H IH]; intros [|k]; cbn; auto.
Qed.

(** The log list is the last 50 log events in the order they arrived:
    messages that do not parse, that are falsy or that have no truthy
    [message] are skipped without a trace, no accepted event is dropped
    while fewer than 50 newer ones have come, and none is reordered or
    repeated. *)
Theorem logs_are_last_50_accepted (events : list (completion value)) :
  Monitor.run_events events = lastn 50 (accepted_entries events)
  /\ length (Monitor.run_events events)
     = Nat.min 50 (length (accepted_entries events))
  /\ (forall more : list (completion value),
        accepted_entries more = [] ->
        Monitor.run_events (events ++ more) = Monitor.run_events events).
Proof.
  split; [apply run_events_lastn|]. split.
  - rewrite run_events_lastn. apply lastn_length.
  - intros more Hm. rewrite !run_events_lastn.
    assert (E : accepted_entries (events ++ more) = accepted_entries events).
    { induction events as [|ev events IH]; cbn; [exact Hm|].
      destruct (accepted_entry ev); now rewrite IH. }
    now rewrite E.
Qed.

Lemma logs_are_last_50_accepted_witness :
  Monitor.run_events
    (repeat (Normal log_event) 3 ++ [Throw TypeError; Normal VNull; Normal (VObj [])])
  = Monitor.run_events (repeat (Normal log_event) 3).
Proof.
  exact (proj2 (proj2 (logs_are_last_50_accepted (repeat (Normal log_event) 3)))
           [Throw TypeError; Normal VNull; Normal (VObj [])] eq_refl).
Defined.

Lemma accepted_entry_ok (parsed : completion value) (e : value) :
  accepted_entry parsed = Some e -> entry_ok e.
Proof.
  unfold accepted_entry. destruct parsed as [data|x]; [|discriminate].
  destruct (truthy data); cbn [andb]; [|discriminate].
  destruct (truthy (prop data "message")) eqn:Hm; [|discriminate].
  intros [= <-]. repeat split; cbn.
  - exact Hm.
  - now apply js_or_truthy.
  - unfold js_or. destruct (truthy (prop data "time")) eqn:Ht; [now left|now right].
Qed.

(** Every line kept in the log has a non-empty [message], a non-empty
    [level] ("INFO" when the event gave none) and a [time] that is the
    event's or the empty string, never [undefined]. *)
Theorem log_entries_well_formed (events : list (completion value)) :
  Forall entry_ok (Monitor.run_events events).
Proof.
  rewrite run_events_lastn. apply Forall_lastn.
  induction events as [|ev events IH]; cbn; [constructor|].
  destruct (accepted_entry ev) as [e|] eqn:E; [|exact IH].
  constructor; [now apply (accepted_entry_ok ev)|exact IH].
Qed.

(** ** vite.config.ts: the proxy's path rewrite *)

Lemma substring_whole (s : string) : String.substring 0 (String.length s) s = s.
Proof. induction s as [|c s IH]; cbn; [reflexivity|now rewrite IH]. Qed.

Lemma prefix_rest (p s : string) :
  String.prefix p s = true ->
  (p ++ String.substring (String.length p) (String.length s - String.length p) s)%string
  = s.
Proof.
  revert s. induction p as [|a p IH]; intros s H; cbn.
  - rewrite Nat.sub_0_r. apply substring_whole.
  - destruct s as [|b s]; cbn in H; [discriminate H|].
    destruct (ascii_dec a b) as [->|]; [|discriminate H].
    cbn. f_equal. now apply IH.
Qed.

(** The rewrite rule of the [/api] proxy changes no path: what the browser
    asks for is what the backend gets. *)
Theorem rewrite_changes_nothing (path : string) : ViteConfig.rewrite path = path.
Proof.
  unfold ViteConfig.rewrite, ViteConfig.replace_leading.
  destruct (String.prefix "/api" path) eqn:E; [|reflexivity].
  now apply prefix_rest.
Qed.

(** ** Articles.vue: [loadArticles] from the call to the list *)

(** [loadArticles] end to end: it sends GET /geo/articles; when the exchange
    succeeds [articles] becomes the body if that is a list, the list under
    the body's [data] if there is one, and the empty list otherwise; when
    the exchange fails [articles] is left as it was, and for an error the
    handler can read one notification has been shown.  Either way a list
    stays a list. *)
Theorem loadArticles_end_to_end (net : Axios.transport_result) (old : value)
  (w : world) :
  Array_isArray old = true ->
  let r := loadArticles_run net old w in
  sent (trace (fst r))
  = sent (trace w) ++ [[("method", VStr "GET"); ("url", VStr "/geo/articles");
                        ("params", VUndef)]]
  /\ Array_isArray (snd r) = true
  /\ match net with
     | Axios.Fulfilled response =>
         let body := Axios.data response in
         snd r = (if Array_isArray body then body
                  else if Array_isArray (opt_chain body ["data"])
                       then opt_chain body ["data"] else VArr [])
         /\ notifications (trace (fst r)) = notifications (trace w)
     | Axios.Failed error =>
         snd r = old
         /\ length (notifications (trace (fst r)))
            = (length (notifications (trace w))
               + if is_nullish error then 0 else 1)%nat
     end.
Proof.
  intros Hold r. subst r. unfold loadArticles_run, geoArticleApi.getArticles, get.
  cbn [spread fst snd].
  set (cfg := [("method", VStr "GET"); ("url", VStr "/geo/articles");
               ("params", VUndef)]).
  destruct (request_trace cfg net w) as (rest & Ht & Hs & _).
  split; [rewrite Ht, sent_app; cbn; now rewrite Hs|].
  split; [now apply loadArticles_keeps_list_aux|].
  destruct net as [response|error].
  - rewrite (request_fulfilled_run cfg response w). cbn [fst snd settle trace].
    split.
    + destruct (loadArticles_three_cases (Axios.data response) old)
        as (H1 & H2 & H3).
      destruct (Array_isArray (Axios.data response)) eqn:Hr; [now apply H1|].
      destruct (Array_isArray (opt_chain (Axios.data response) ["data"])) eqn:Hd;
        [now apply H2|now apply H3].
    + rewrite notifications_app. cbn. now rewrite app_nil_r.
  - split.
    + destruct (snd (request cfg (Axios.Failed error) w)) as [[payload|reason]|e] eqn:E;
        try reflexivity.
      exfalso. destruct (is_nullish error) eqn:Hn.
      * destruct error; try discriminate Hn; discriminate E.
      * rewrite (request_failed_run error Hn cfg w) in E. discriminate E.
    + rewrite request_notifications. cbn [failed_defined].
      now destruct (is_nullish error).
Qed.

Lemma loadArticles_end_to_end_witness :
  Array_isArray (VArr [VStr "old"]) = true
  /\ snd (loadArticles_run (Axios.Failed error_timeout) (VArr [VStr "old"]) world0)
     = VArr [VStr "old"].
Proof.
  split; [reflexivity|].
  exact (proj1 (proj2 (proj2 (loadArticles_end_to_end (Axios.Failed error_timeout)
                                (VArr [VStr "old"]) world0 eq_refl)))).
Defined.
